(** * Pediatric diabetes risk calculator: the prediction section of [app.py]

    A shallow embedding of the code that runs when the risk form is
    submitted ([app.py], lines 123-195): the BMI computation, the encoding of
    the form into a one-row data frame, the two classifier queries, the
    health suggestions and the single-metric what-if analysis.  With it come
    the dates of the form (lines 103-108) and the gauge (lines 58-74).

    Numbers are Python numbers: unbounded integers and IEEE 754 binary64
    floats, the latter through the Standard Library's [SpecFloat], whose
    operations are the correctly rounded ones.  Four things are taken from
    outside the file: the classifier, which is a parameter of every
    definition that asks it; the C library's [pow], which [**] calls and
    which is a parameter as well, correctly rounded or not; the arithmetic of
    Python, which is the module [Py]; and the page, which is the list of the
    elements the script sends to it. *)

From Stdlib Require Import String.
Local Open Scope string_scope.
From Stdlib Require Import ZArith List Bool Lia QArith Qabs Qfield.
From Stdlib Require Import Floats.SpecFloat.
Import ListNotations.
Local Open Scope list_scope.
Local Open Scope Z_scope.

(** ** Python numbers *)

Module Py.

Definition float : Type := spec_float.

Definition prec : Z := 53.
Definition emax : Z := 1024.

Definition fsub : float -> float -> float := SFsub prec emax.
Definition fmul : float -> float -> float := SFmul prec emax.
Definition fdiv : float -> float -> float := SFdiv prec emax.

(** An integer as an (unnormalised) float datum [z * 2^0]; the division and
    the rounding below take any mantissa and return a canonical binary64. *)
Definition raw (z : Z) : float :=
  match z with
  | Z0 => S754_zero false
  | Zpos p => S754_finite false p 0
  | Zneg p => S754_finite true p 0
  end.

(** [float(z)]: the binary64 nearest to [z], ties to even. *)
Definition float_of_Z (z : Z) : float := binary_normalize prec emax z 0 false.

(** The float nearest to [(-1)^s * k / 10^scale] for [0 <= k]: this is how a
    decimal string is read back; a zero keeps the sign. *)
Definition nearest_decimal (s : bool) (k : Z) (scale : Z) : float :=
  match k with
  | Zpos p => fdiv (S754_finite s p 0) (raw (10 ^ scale))
  | _ => S754_zero s
  end.

(** A decimal literal [digits / 10^scale], e.g. [decimal 2133 2] for
    [21.33]. *)
Definition decimal (digits : Z) (scale : Z) : float :=
  nearest_decimal (digits <? 0) (Z.abs digits) scale.

Definition sign (x : float) : bool :=
  match x with
  | S754_zero s | S754_infinity s | S754_finite s _ _ => s
  | S754_nan => false
  end.

Definition is_finite (x : float) : bool :=
  match x with
  | S754_zero _ | S754_finite _ _ _ => true
  | _ => false
  end.

Definition is_nan (x : float) : bool :=
  match x with S754_nan => true | _ => false end.

(** The rational a finite float stands for (0 for the others). *)
Definition to_Q (x : float) : Q :=
  match x with
  | S754_finite s m e =>
      let v := if (0 <=? e)%Z then inject_Z (Zpos m * 2 ^ e)
               else Qmake (Zpos m) (Z.to_pos (2 ^ (- e))) in
      if s then Qopp v else v
  | _ => 0%Q
  end.

Inductive value : Type :=
| VInt (z : Z)
| VFloat (x : float).

Inductive exn : Type :=
| ZeroDivisionError
| OverflowError.

Inductive result (A : Type) : Type :=
| Ok (a : A)
| Raise (e : exn).
Arguments Ok {A} a.
Arguments Raise {A} e.

(** *** Comparison *)

(** [x > y] on two floats; false as soon as one is a NaN. *)
Definition float_gt (x y : float) : bool :=
  match SFcompare x y with
  | Some Gt => true
  | _ => false
  end.

(** A float against an integer, compared exactly as Python does. *)
Definition compare_float_Z (x : float) (z : Z) : option comparison :=
  match x with
  | S754_nan => None
  | S754_infinity s => Some (if s then Lt else Gt)
  | S754_zero _ => Some (0 ?= z)
  | S754_finite s m e =>
      let n := if s then Zneg m else Zpos m in
      Some (if 0 <=? e then (n * 2 ^ e ?= z) else (n ?= z * 2 ^ (- e)))
  end.

(** [v > n] for an integer constant [n]. *)
Definition gt (v : value) (n : Z) : bool :=
  match v with
  | VInt z => n <? z
  | VFloat x =>
      match compare_float_Z x n with
      | Some Gt => true
      | _ => false
      end
  end.

(** [x <= 0] on a float. *)
Definition float_le0 (x : float) : bool :=
  match compare_float_Z x 0 with
  | Some Lt | Some Eq => true
  | _ => false
  end.

(** *** Arithmetic *)

(** [a / b], true division.  Two integers give the correctly rounded
    quotient; an integer met by a float is converted first; a zero divisor
    raises, an integer too large for a float raises. *)
Definition as_double (v : value) : result float :=
  match v with
  | VFloat x => Ok x
  | VInt z =>
      match float_of_Z z with
      | S754_infinity _ => Raise OverflowError
      | x => Ok x
      end
  end.

Definition is_zero (x : float) : bool :=
  match x with S754_zero _ => true | _ => false end.

Definition float_div (a b : float) : result float :=
  if is_zero b then Raise ZeroDivisionError else Ok (fdiv a b).

Definition truediv (a b : value) : result float :=
  match a, b with
  | VInt x, VInt y =>
      if y =? 0 then Raise ZeroDivisionError
      else match fdiv (raw x) (raw y) with
           | S754_infinity _ => Raise OverflowError
           | q => Ok q
           end
  | _, _ =>
      match as_double a with
      | Raise e => Raise e
      | Ok x =>
          match as_double b with
          | Raise e => Raise e
          | Ok y => float_div x y
          end
      end
  end.

(** [x ** 2] on a float, as [float_pow] of CPython does it.  NaN, the
    infinities, the zeros and 1 are settled without the C library, and the
    sign of a negative base is dropped, the exponent being an even integer.
    What is left, a finite positive base other than 1, goes to the C
    library: [libm_pow2 x] stands for its [pow (x, 2.0)], and
    [ADJUST_ERANGE1] for the reading of its outcome: an infinite result is an
    overflow, which raises.  (The C library is taken to report a range error
    on an overflow only, as it does where the result is a normal number.) *)
Definition ADJUST_ERANGE1 (ix : float) : result float :=
  match ix with
  | S754_infinity _ => Raise OverflowError
  | _ => Ok ix
  end.

Definition pow2 (libm_pow2 : float -> float) (x : float) : result float :=
  match x with
  | S754_nan => Ok x
  | S754_infinity _ => Ok (S754_infinity false)
  | S754_zero _ => Ok (S754_zero false)
  | S754_finite _ m e =>
      let iv := S754_finite false m e in
      match compare_float_Z iv 1 with
      | Some Eq => Ok (float_of_Z 1)
      | _ => ADJUST_ERANGE1 (libm_pow2 iv)
      end
  end.

(** The integer nearest to [n / d] for [0 < d], ties to the even one. *)
Definition round_half_even (n d : Z) : Z :=
  let q := n / d in
  match 2 * (n mod d) ?= d with
  | Lt => q
  | Gt => q + 1
  | Eq => if Z.even q then q else q + 1
  end.

(** [round (x, ndigits)] for [0 <= ndigits] on a float: the exact value of
    [x] is rounded to [ndigits] decimals, ties to even, and that decimal is
    read back as a float.  Infinities and NaN are their own rounding. *)
Definition round (x : float) (ndigits : Z) : float :=
  match x with
  | S754_finite s m e =>
      let k := if 0 <=? e
               then Zpos m * 2 ^ e * 10 ^ ndigits
               else round_half_even (Zpos m * 10 ^ ndigits) (2 ^ (- e)) in
      nearest_decimal s k ndigits
  | _ => x
  end.

(** The integer [round] reads back, for a finite [x]: [x] times
    [10^ndigits], rounded to an integer, ties to even. *)
Definition round_digits (x : float) (ndigits : Z) : Z :=
  match x with
  | S754_finite s m e =>
      if 0 <=? e
      then Zpos m * 2 ^ e * 10 ^ ndigits
      else round_half_even (Zpos m * 10 ^ ndigits) (2 ^ (- e))
  | _ => 0
  end.

(** *** The C library *)

(** A float [r] against the exact square of [x]. *)
Definition compare_square (r x : float) : comparison :=
  match r, x with
  | S754_finite false mr er, S754_finite _ m e =>
      let d := er - 2 * e in
      if 0 <=? d then Zpos mr * 2 ^ d ?= Zpos (m * m)
      else Zpos mr ?= Zpos (m * m) * 2 ^ (- d)
  | S754_infinity false, _ => Gt
  | S754_zero _, S754_finite _ _ _ => Lt
  | _, _ => Eq
  end.

(** Three C libraries: one whose [pow (x, 2.0)] is the square rounded to the
    nearest float, one that rounds the square down, one that rounds it up. *)
Definition nearest_pow2 (x : float) : float := fmul x x.

Definition floor_pow2 (x : float) : float :=
  let r := fmul x x in
  match compare_square r x with
  | Gt => SFpred prec emax r
  | _ => r
  end.

Definition ceil_pow2 (x : float) : float :=
  let r := fmul x x in
  match compare_square r x with
  | Lt => SFsucc prec emax r
  | _ => r
  end.

(** What a statement may ask of the C library: that its [pow (x, 2.0)] is
    less than one unit in the last place away from the square of [x], that
    is, that it is the square rounded down or the square rounded up (and the
    square itself when the square is a float). *)
Definition squares_near (x : float) : list float := [floor_pow2 x; ceil_pow2 x].

Definition within_one_ulp (libm_pow2 : float -> float) : Prop :=
  forall x, In (libm_pow2 x) (squares_near x).

(** What [pow2] can return when the C library is within one unit in the last
    place. *)
Definition pow2_outcomes (x : float) : list (result float) :=
  match x with
  | S754_finite _ m e =>
      let iv := S754_finite false m e in
      match compare_float_Z iv 1 with
      | Some Eq => [Ok (float_of_Z 1)]
      | _ => map ADJUST_ERANGE1 (squares_near iv)
      end
  | _ => [pow2 nearest_pow2 x]
  end.

End Py.

Import Py.

(** ** Insertion-ordered tables

    A one-row data frame (column name to cell) and the [changes] dict
    (factor name to risk delta) both keep their keys in insertion order;
    assigning to a key that is present replaces its value in place, assigning
    to an absent key appends it. *)

Section Table.
Context {V : Type}.

Fixpoint setitem (k : string) (v : V) (d : list (string * V)) : list (string * V) :=
  match d with
  | [] => [(k, v)]
  | (k', v') :: d' =>
      if String.eqb k k' then (k, v) :: d' else (k', v') :: setitem k v d'
  end.

Fixpoint getitem (k : string) (d : list (string * V)) : option V :=
  match d with
  | [] => None
  | (k', v') :: d' => if String.eqb k k' then Some v' else getitem k d'
  end.

Definition columns (d : list (string * V)) : list string := map fst d.
End Table.

(** A one-row [pandas.DataFrame]. *)
Abbreviation row := (list (string * value)).

(** ** The classifier

    [model] is loaded from a pickle and is opaque here: [predict X] stands
    for [model.predict(X)[0]] and [predict_proba X] for the two class
    probabilities [model.predict_proba(X)[0]]. *)

Record Model : Type := {
  predict : row -> Z;
  predict_proba : row -> float * float
}.

(** ** The form

    What the widgets of the form return when it is submitted.  The select
    boxes offer "Male" and "Female", "Sedentary", "Moderate" and "Active",
    "Yes" and "No".  The number inputs of the page return whole numbers
    ([VInt]); the fields are left open to floats, as the expressions that
    use them are in Python.  [age] is computed from the date of birth before
    the section starts. *)

Inductive Sex : Type := Male | Female.
Inductive Activity : Type := Sedentary | Moderate | Active.
Inductive YesNo : Type := Yes | No.

Record Form : Type := {
  age : Z;
  height : value;
  weight : value;
  glucose : value;
  insulin : value;
  blood_pressure : value;
  sex : Sex;
  activity : Activity;
  family_history : YesNo
}.

(** ** What a run does: frames, classifier queries, page elements *)

Inductive query : Type :=
| Predict (X : row)
| PredictProba (X : row).

(** The calls to [st] of the section, with the text or the number they are
    given; the texts are written without their leading pictograph.  The last
    one is the what-if line, [st.info] of a text built from [best_factor] and
    from [drop], which it prints with one decimal. *)
Inductive element : Type :=
| subheader (body : string)
| write_age (age : Z)
| write_bmi (bmi : float)
| success (body : string)
| plotly_chart_gauge (probability : float)
| markdown (body : string)
| warning (body : string)
| info (body : string)
| info_what_if (best_factor : string) (drop : float).

(** Data frames live in a heap and are named by their index, so that a
    reference and a copy are different things.  Queries and page elements
    are recorded oldest first. *)
Record store : Type := {
  frames : list row;
  queries : list query;
  screen : list element
}.

Definition fresh : store := {| frames := []; queries := []; screen := [] |}.

Definition frame_ref : Type := nat.

(** [l[i] = f(l[i])], nothing when [i] is out of range. *)
Fixpoint update {A : Type} (i : nat) (f : A -> A) (l : list A) : list A :=
  match l, i with
  | [], _ => []
  | x :: l', O => f x :: l'
  | x :: l', S i' => x :: update i' f l'
  end.

(** ** The monad of the script: a store, and an exception that ends the run *)

Definition M (A : Type) : Type := store -> result A * store.

Definition ret {A : Type} (a : A) : M A := fun s => (Ok a, s).

Definition bind {A B : Type} (c : M A) (k : A -> M B) : M B :=
  fun s =>
    match c s with
    | (Ok a, s') => k a s'
    | (Raise e, s') => (Raise e, s')
    end.

Definition lift {A : Type} (r : result A) : M A := fun s => (r, s).

Notation "x <- c ;; k" := (bind c (fun x => k))
  (at level 61, c at next level, right associativity).
Notation "c ;; k" := (bind c (fun _ => k))
  (at level 61, right associativity).

(** [pd.DataFrame([[...]], columns=[...])] *)
Definition DataFrame (X : row) : M frame_ref :=
  fun s => (Ok (length (frames s)),
            {| frames := frames s ++ [X]; queries := queries s; screen := screen s |}).

Definition read (df : frame_ref) (s : store) : row := nth df (frames s) [].

(** [df.copy()] *)
Definition copy (df : frame_ref) : M frame_ref :=
  fun s => DataFrame (read df s) s.

(** [df[col] = v] *)
Definition set_column (df : frame_ref) (col : string) (v : value) : M unit :=
  fun s => (Ok tt,
            {| frames := update df (setitem col v) (frames s);
               queries := queries s; screen := screen s |}).

Definition ask (q : query) : M unit :=
  fun s => (Ok tt,
            {| frames := frames s; queries := queries s ++ [q]; screen := screen s |}).

(** [model.predict(df)[0]] *)
Definition model_predict (model : Model) (df : frame_ref) : M Z :=
  fun s => (ask (Predict (read df s)) ;; ret (predict model (read df s))) s.

(** [model.predict_proba(df)[0][1]] *)
Definition model_predict_proba (model : Model) (df : frame_ref) : M float :=
  fun s => (ask (PredictProba (read df s)) ;;
            ret (snd (predict_proba model (read df s)))) s.

(** [st.subheader], [st.write], [st.warning], ... *)
Definition st (e : element) : M unit :=
  fun s => (Ok tt,
            {| frames := frames s; queries := queries s; screen := screen s ++ [e] |}).

Definition when (b : bool) (c : M unit) : M unit := if b then c else ret tt.

(** [max(d, key=d.get)] on a dict, from its first item on: the keys are
    visited in insertion order, each with the value [d.get] returns for it,
    and a key replaces the current best only when its value is strictly
    greater, so the first of several maximal keys is returned. *)
Fixpoint max_from (best : string * float) (rest : list (string * float)) : string * float :=
  match rest with
  | [] => best
  | item :: rest' =>
      if float_gt (snd item) (snd best) then max_from item rest'
      else max_from best rest'
  end.

(** ** The date of birth and the age (lines 103-108)

    Python's [date] is a year, a month and a day; its ordinal counts the days
    from 1 January of year 1, and [fromordinal] is the way back.  Taking days
    from a date goes through the ordinal and raises when it leaves the
    calendar; dates compare as (year, month, day). *)

Module Dates.

Record date : Type := { year : Z; month : Z; day : Z }.

Definition is_leap (y : Z) : bool :=
  (y mod 4 =? 0) && (negb (y mod 100 =? 0) || (y mod 400 =? 0)).

Definition DAYS_IN_MONTH (m : Z) : Z :=
  match m with
  | 1 => 31 | 2 => 28 | 3 => 31 | 4 => 30 | 5 => 31 | 6 => 30
  | 7 => 31 | 8 => 31 | 9 => 30 | 10 => 31 | 11 => 30 | 12 => 31
  | _ => -1
  end.

Definition DAYS_BEFORE_MONTH (m : Z) : Z :=
  match m with
  | 1 => 0 | 2 => 31 | 3 => 59 | 4 => 90 | 5 => 120 | 6 => 151
  | 7 => 181 | 8 => 212 | 9 => 243 | 10 => 273 | 11 => 304 | 12 => 334
  | _ => -1
  end.

Definition days_before_year (y : Z) : Z :=
  let y := y - 1 in y * 365 + y / 4 - y / 100 + y / 400.

Definition days_in_month (y m : Z) : Z :=
  if (m =? 2) && is_leap y then 29 else DAYS_IN_MONTH m.

Definition days_before_month (y m : Z) : Z :=
  DAYS_BEFORE_MONTH m + (if (2 <? m) && is_leap y then 1 else 0).

Definition ymd2ord (y m d : Z) : Z :=
  days_before_year y + days_before_month y m + d.

Definition toordinal (d : date) : Z := ymd2ord (year d) (month d) (day d).

Definition ord2ymd (n : Z) : date :=
  let n := n - 1 in
  let n400 := n / 146097 in let n := n mod 146097 in
  let year := n400 * 400 + 1 in
  let n100 := n / 36524 in let n := n mod 36524 in
  let n4 := n / 1461 in let n := n mod 1461 in
  let n1 := n / 365 in let n := n mod 365 in
  let year := year + n100 * 100 + n4 * 4 + n1 in
  if (n1 =? 4) || (n100 =? 4) then {| year := year - 1; month := 12; day := 31 |}
  else
    let leapyear := (n1 =? 3) && (negb (n4 =? 24) || (n100 =? 3)) in
    let month := Z.shiftr (n + 50) 5 in
    let preceding :=
      DAYS_BEFORE_MONTH month + (if (2 <? month) && leapyear then 1 else 0) in
    if n <? preceding
    then
      let month := month - 1 in
      let preceding :=
        preceding - (DAYS_IN_MONTH month + (if (month =? 2) && leapyear then 1 else 0)) in
      {| year := year; month := month; day := n - preceding + 1 |}
    else {| year := year; month := month; day := n - preceding + 1 |}.

Definition fromordinal (n : Z) : date := ord2ymd n.

(** A date of the calendar, years 1 to 9999. *)
Definition valid (d : date) : bool :=
  (1 <=? year d) && (year d <=? 9999) && (1 <=? month d) && (month d <=? 12)
  && (1 <=? day d) && (day d <=? days_in_month (year d) (month d)).

Definition MAXORDINAL : Z := 3652059.

(** [d - timedelta(days=days)] *)
Definition sub_days (d : date) (days : Z) : result date :=
  let o := toordinal d - days in
  if (0 <? o) && (o <=? MAXORDINAL) then Ok (fromordinal o) else Raise OverflowError.

(** [a <= b] on dates. *)
Definition date_le (a b : date) : bool :=
  (year a <? year b)
  || ((year a =? year b)
      && ((month a <? month b) || ((month a =? month b) && (day a <=? day b)))).

(** [a < b] on pairs of integers. *)
Definition pair_lt (a b : Z * Z) : bool :=
  (fst a <? fst b) || ((fst a =? fst b) && (snd a <? snd b)).

(** Line 104: [max_dob = today - timedelta(days=5 * 365)]. *)
Definition max_dob (today : date) : result date := sub_days today (5 * 365).

(** Line 105: [min_dob = today - timedelta(days=18 * 365)]. *)
Definition min_dob (today : date) : result date := sub_days today (18 * 365).

(** Line 108:
    [age = today.year - dob.year - ((today.month, today.day) < (dob.month, dob.day))]. *)
Definition age (today dob : date) : Z :=
  year today - year dob
  - (if pair_lt (month today, day today) (month dob, day dob) then 1 else 0).

End Dates.

(** ** The gauge (lines 58-74)

    The data [create_gauge] hands to the indicator of the figure: the number
    shown, the range of the axis, the colour of the bar and the coloured
    steps behind it. *)

Module Gauge.

Record Indicator : Type := {
  mode : string;
  value : float;
  title : string;
  axis_range : Z * Z;
  bar_color : string;
  steps : list (Z * Z * string)
}.

Definition create_gauge (probability : float) : Indicator :=
  {| mode := "gauge+number";
     value := fmul probability (float_of_Z 100);
     title := "Diabetes Risk (%)";
     axis_range := (0, 100);
     bar_color := if float_gt probability (decimal 6 1) then "red"
                  else if float_gt probability (decimal 3 1) then "orange"
                  else "green";
     steps := [ (0, 30, "lightgreen"); (30, 60, "yellow"); (60, 100, "salmon") ] |}.

(** How alarming a bar colour is. *)
Definition severity (color : string) : Z :=
  if String.eqb color "red" then 2
  else if String.eqb color "orange" then 1
  else 0.

End Gauge.

(** ** Checks that are run over the heights and weights of the form *)

(** The integers [lo], [lo + 1], ... ([n] of them). *)
Definition Zrange (lo : Z) (n : nat) : list Z :=
  map (fun i => lo + Z.of_nat i) (seq 0 n).

(** [weight / square], the square being what [**] returned or raised. *)
Definition quotient_over (weight : value) (square : result float) : result float :=
  match square with
  | Raise e => Raise e
  | Ok sq => truediv weight (VFloat sq)
  end.

(** The body mass indices line 124 can give when the C library is within
    one unit in the last place. *)
Definition rounded (quotient : result float) : result float :=
  match quotient with
  | Raise e => Raise e
  | Ok q => Ok (round q 2)
  end.

Definition bmi_outcomes (weight height : value) : list (result float) :=
  match truediv height (VInt 100) with
  | Raise e => [Raise e]
  | Ok metres =>
      map (fun square => rounded (quotient_over weight square)) (pow2_outcomes metres)
  end.

(** The body mass index in exact arithmetic, weight over the square of the
    height in metres. *)
Definition exact_bmi (w h : Z) : Q :=
  (inject_Z w / ((inject_Z h / 100) * (inject_Z h / 100)))%Q.

(** For a height [h], a weight [w] and a square of the height in metres: the
    quotient is computed, finite and not negative, and it rounds to a whole
    number [k] of hundredths, from 125 to 166667, that is within half a
    hundredth of the exact body mass index. *)
Definition bmi_checked (h w : Z) (square : result float) : bool :=
  match quotient_over (VInt w) square with
  | Ok q =>
      let k := round_digits q 2 in
      is_finite q
      && negb (sign q)
      && (2 * Z.abs (k * h * h - 1000000 * w) <=? h * h)
      && (125 <=? k)
      && (k <=? 166667)
  | Raise _ => false
  end.

Definition height_checked (h : Z) : bool :=
  match truediv (VInt h) (VInt 100) with
  | Ok metres =>
      let squares := pow2_outcomes metres in
      forallb (fun w => forallb (bmi_checked h w) squares) (Zrange 5 146)
  | Raise _ => false
  end.

(** The square of a height in metres is computed and is not zero, whatever
    the C library within one unit in the last place. *)
Definition square_defined (h : Z) : bool :=
  match truediv (VInt h) (VInt 100) with
  | Ok metres =>
      forallb (fun square => match square with
                             | Ok sq => negb (is_zero sq)
                             | Raise _ => false
                             end)
              (pow2_outcomes metres)
  | Raise _ => false
  end.

Definition is_predict_proba (q : query) : bool :=
  match q with
  | PredictProba _ => true
  | Predict _ => false
  end.

(** ** The script

    From here on [libm_pow2] is the [pow (x, 2.0)] of the C library the
    interpreter is linked with.  Nothing is assumed of it but where a
    statement says so. *)

Section Script.

Variable libm_pow2 : float -> float.

(** ** The prediction section *)

(** Line 124: [bmi = round(weight / ((height / 100) ** 2), 2)]. *)
Definition raw_bmi (weight height : value) : result float :=
  match truediv height (VInt 100) with
  | Raise e => Raise e
  | Ok metres =>
      match pow2 libm_pow2 metres with
      | Raise e => Raise e
      | Ok square => truediv weight (VFloat square)
      end
  end.

Definition bmi_of (weight height : value) : result float :=
  match raw_bmi weight height with
  | Raise e => Raise e
  | Ok q => Ok (round q 2)
  end.

(** Lines 126-129. *)
Definition sex_encoded (sex : Sex) : Z :=
  match sex with Male => 1 | Female => 0 end.

Definition activity_map (activity : Activity) : Z :=
  match activity with Sedentary => 0 | Moderate => 1 | Active => 2 end.

Definition family_history_encoded (family_history : YesNo) : Z :=
  match family_history with Yes => 1 | No => 0 end.

(** Lines 131-137: the row handed to [pd.DataFrame]. *)
Definition input_row (f : Form) (bmi : float) : row :=
  [ ("Age", VInt (age f));
    ("Sex", VInt (sex_encoded (sex f)));
    ("BMI", VFloat bmi);
    ("Glucose", glucose f);
    ("Insulin", insulin f);
    ("BloodPressure", blood_pressure f);
    ("PhysicalActivityLevel", VInt (activity_map (activity f)));
    ("FamilyHistory", VInt (family_history_encoded (family_history f))) ].

(** Lines 152-161. *)
Definition health_suggestions (f : Form) (bmi : float) : M unit :=
  when (gt (VFloat bmi) 22)
    (st (warning "BMI is high for age. Consider weight management.")) ;;
  when (gt (glucose f) 110)
    (st (warning "Glucose is elevated. Consider dietary monitoring.")) ;;
  when (gt (insulin f) 25)
    (st (warning "Insulin is elevated. Consult a pediatrician.")) ;;
  when (gt (blood_pressure f) 120)
    (st (warning "High blood pressure. Needs monitoring.")) ;;
  when (negb (family_history_encoded (family_history f) =? 0))
    (st (info "Family history increases risk. Take preventive measures.")).

(** Lines 173-189, one of the three blocks: set the column to its healthy
    value, ask for the probability, record the drop, put the value back. *)
Definition what_if (model : Model) (what_if_data : frame_ref) (probability : float)
    (col : string) (healthy original : value)
    (changes : list (string * float)) : M (list (string * float)) :=
  set_column what_if_data col healthy ;;
  new_prob <- model_predict_proba model what_if_data ;;
  let changes := setitem col (fsub probability new_prob) changes in
  set_column what_if_data col original ;;
  ret changes.

(** Lines 166-195. *)
Definition what_if_analysis (model : Model) (f : Form) (bmi : float)
    (input_data : frame_ref) (probability : float) : M unit :=
  what_if_data <- copy input_data ;;
  let changes := [] in
  changes <- (if gt (VFloat bmi) 22
              then what_if model what_if_data probability "BMI" (VInt 20) (VFloat bmi) changes
              else ret changes) ;;
  changes <- (if gt (glucose f) 110
              then what_if model what_if_data probability "Glucose" (VInt 100) (glucose f) changes
              else ret changes) ;;
  changes <- (if gt (insulin f) 25
              then what_if model what_if_data probability "Insulin" (VInt 20) (insulin f) changes
              else ret changes) ;;
  match changes with
  | [] => ret tt
  | first :: rest =>
      let best := max_from first rest in
      let best_factor := fst best in
      let drop := fmul (snd best) (float_of_Z 100) in
      st (info_what_if best_factor drop)
  end.

(** Lines 123-195: the body of [if submitted:]. *)
Definition prediction_section (model : Model) (f : Form) : M unit :=
  bmi <- lift (bmi_of (weight f) (height f)) ;;
  input_data <- DataFrame (input_row f bmi) ;;
  prediction <- model_predict model input_data ;;
  probability <- model_predict_proba model input_data ;;
  st (subheader "Prediction Result:") ;;
  st (write_age (age f)) ;;
  st (write_bmi bmi) ;;
  st (success (if prediction =? 1 then "At Risk of Diabetes" else "Not at Risk")) ;;
  st (plotly_chart_gauge probability) ;;
  st (markdown "---") ;;
  st (subheader "Health Suggestions") ;;
  health_suggestions f bmi ;;
  when (prediction =? 1) (what_if_analysis model f bmi input_data probability).

(** A run of the script on a submitted form, from a given store. *)
Definition run (model : Model) (f : Form) (s : store) : result unit * store :=
  prediction_section model f s.

(** ** What a run is expected to leave behind

    The design in its own words: the eligible factors, the probe of a
    factor, its risk delta, the table of suggestions, the line of the
    counterfactual.  [run_returns] below proves that a run of the script
    that gets past the BMI leaves exactly this behind. *)

(** The three factors of the what-if analysis in the order the code visits
    them: column, healthy value, and whether the patient's value is over the
    threshold of the matching suggestion. *)
Definition factors (f : Form) (bmi : float) : list (string * value * bool) :=
  [ ("BMI", VInt 20, gt (VFloat bmi) 22);
    ("Glucose", VInt 100, gt (glucose f) 110);
    ("Insulin", VInt 20, gt (insulin f) 25) ].

Definition eligible (f : Form) (bmi : float) : list (string * value) :=
  map fst (filter snd (factors f bmi)).

(** The row with one column replaced by its healthy value. *)
Definition probe (X : row) (c : string * value) : row :=
  setitem (fst c) (snd c) X.

(** Base probability minus the probability of the probe. *)
Definition risk_delta (model : Model) (X : row) (c : string * value) : float :=
  fsub (snd (predict_proba model X)) (snd (predict_proba model (probe X c))).

Definition deltas (model : Model) (X : row) (cs : list (string * value))
  : list (string * float) :=
  map (fun c => (fst c, risk_delta model X c)) cs.

(** The suggestion table of the page, in its order. *)
Definition suggestion_table (f : Form) (bmi : float) : list (bool * element) :=
  [ (gt (VFloat bmi) 22, warning "BMI is high for age. Consider weight management.");
    (gt (glucose f) 110, warning "Glucose is elevated. Consider dietary monitoring.");
    (gt (insulin f) 25, warning "Insulin is elevated. Consult a pediatrician.");
    (gt (blood_pressure f) 120, warning "High blood pressure. Needs monitoring.");
    (match family_history f with Yes => true | No => false end,
     info "Family history increases risk. Take preventive measures.") ].

Definition suggestions (f : Form) (bmi : float) : list element :=
  map snd (filter fst (suggestion_table f bmi)).

Definition at_risk (model : Model) (X : row) : bool := predict model X =? 1.

Definition counterfactual (model : Model) (X : row) (cs : list (string * value))
  : list element :=
  match deltas model X cs with
  | [] => []
  | first :: rest =>
      let best := max_from first rest in
      [info_what_if (fst best) (fmul (snd best) (float_of_Z 100))]
  end.

Definition result_header (model : Model) (f : Form) (bmi : float) : list element :=
  let X := input_row f bmi in
  [ subheader "Prediction Result:";
    write_age (age f);
    write_bmi bmi;
    success (if at_risk model X then "At Risk of Diabetes" else "Not at Risk");
    plotly_chart_gauge (snd (predict_proba model X));
    markdown "---";
    subheader "Health Suggestions" ].

Definition new_frames (model : Model) (f : Form) (bmi : float) : list row :=
  let X := input_row f bmi in
  X :: (if at_risk model X then [X] else []).

Definition new_queries (model : Model) (f : Form) (bmi : float) : list query :=
  let X := input_row f bmi in
  Predict X :: PredictProba X ::
  (if at_risk model X
   then map (fun c => PredictProba (probe X c)) (eligible f bmi)
   else []).

Definition new_elements (model : Model) (f : Form) (bmi : float) : list element :=
  let X := input_row f bmi in
  result_header model f bmi ++ suggestions f bmi ++
  (if at_risk model X then counterfactual model X (eligible f bmi) else []).

(** ** Reading a finished run *)

(** The row the classifier was first asked about. *)
Definition encoded (s : store) : option row :=
  match queries s with
  | Predict X :: _ => Some X
  | _ => None
  end.

(** The rows of the probability queries that follow the two base queries. *)
Definition probes (s : store) : list row :=
  flat_map (fun q => match q with PredictProba X => [X] | Predict _ => [] end)
           (skipn 2 (queries s)).

Definition is_suggestion (e : element) : bool :=
  match e with
  | warning _ | info _ => true
  | _ => false
  end.

Definition is_what_if (e : element) : bool :=
  match e with
  | info_what_if _ _ => true
  | _ => false
  end.

Definition shown_suggestions (s : store) : list element := filter is_suggestion (screen s).
Definition shown_what_if (s : store) : list element := filter is_what_if (screen s).

(** What a run adds to the store it starts from. *)
Definition extend (s d : store) : store :=
  {| frames := frames s ++ frames d;
     queries := queries s ++ queries d;
     screen := screen s ++ screen d |}.

(** The patient of the end-to-end scenario. *)
Definition scenario : Form :=
  {| age := 10; height := VInt 120; weight := VInt 35;
     glucose := VInt 130; insulin := VInt 30; blood_pressure := VInt 95;
     sex := Male; activity := Sedentary; family_history := Yes |}.

(** Classifiers used as examples: one that answers the same whatever the
    row, and one whose risk goes from 0.8 to 0.9 as soon as the BMI, the
    glucose or the insulin cell holds its healthy value. *)
Definition constant_model (label : Z) (p : float) : Model :=
  {| predict := fun _ => label;
     predict_proba := fun _ => (fsub (float_of_Z 1) p, p) |}.

Definition is_healthy (X : row) (c : string * value) : bool :=
  match getitem (fst c) X, snd c with
  | Some (VInt z), VInt h => z =? h
  | _, _ => false
  end.

Definition contrary_model : Model :=
  {| predict := fun _ => 1;
     predict_proba := fun X =>
       if existsb (is_healthy X)
            [("BMI", VInt 20); ("Glucose", VInt 100); ("Insulin", VInt 20)]
       then (decimal 1 1, decimal 9 1)
       else (decimal 2 1, decimal 8 1) |}.

(** A third example: the risk is 0.3 with a healthy glucose, 0.5 with a
    healthy BMI and 0.8 otherwise. *)
Definition glucose_model : Model :=
  {| predict := fun _ => 1;
     predict_proba := fun X =>
       if is_healthy X ("Glucose", VInt 100) then (decimal 7 1, decimal 3 1)
       else if is_healthy X ("BMI", VInt 20) then (decimal 5 1, decimal 5 1)
       else (decimal 2 1, decimal 8 1) |}.

(** The warning of the first line of the suggestion table. *)
Definition bmi_warning : element :=
  warning "BMI is high for age. Consider weight management.".

(** ** Notions used to state the order on floats *)

Definition float_lt (x y : float) : bool := SFltb x y.
Definition float_le (x y : float) : bool := SFleb x y.

(** Away from NaN, [SFcompare] is the lexicographic order on a key made of
    the class of the float, its exponent and its mantissa. *)
Definition key (x : float) : Z * Z * Z :=
  match x with
  | S754_infinity true => (-2, 0, 0)
  | S754_finite true m e => (-1, - e, Zneg m)
  | S754_finite false m e => (1, e, Zpos m)
  | S754_infinity false => (2, 0, 0)
  | _ => (0, 0, 0)
  end.

Definition lex_lt (a b : Z * Z * Z) : Prop :=
  fst (fst a) < fst (fst b) \/
  (fst (fst a) = fst (fst b) /\
   (snd (fst a) < snd (fst b) \/ (snd (fst a) = snd (fst b) /\ snd a < snd b))).

Definition lex_eq (a b : Z * Z * Z) : Prop :=
  fst (fst a) = fst (fst b) /\ snd (fst a) = snd (fst b) /\ snd a = snd b.

(** The result of a rounding is a zero, a finite float or an infinity of the
    sign that was asked for. *)
Definition signed_as (s : bool) (x : float) : Prop :=
  match x with
  | S754_zero s' | S754_infinity s' | S754_finite s' _ _ => s' = s
  | S754_nan => False
  end.


(** ** The run, step by step *)

Lemma nth_end {A : Type} (l : list A) (x d : A) :
  nth (length l) (l ++ [x]) d = x.
Proof. apply nth_middle. Qed.

Lemma update_end {A : Type} (g : A -> A) (l : list A) (x : A) :
  update (length l) g (l ++ [x]) = l ++ [g x].
Proof. induction l as [|y l IH]; simpl; [reflexivity | now rewrite IH]. Qed.

Lemma setitem_restore {V : Type} (k : string) (v v' : V) (d : list (string * V)) :
  getitem k d = Some v -> setitem k v (setitem k v' d) = d.
Proof.
  induction d as [|[k0 v0] d IH]; simpl; [discriminate|].
  destruct (String.eqb k k0) eqn:E; simpl; rewrite ?String.eqb_refl, ?E.
  - intros [= ->]. apply String.eqb_eq in E. now subst.
  - intros H. now rewrite IH.
Qed.

Lemma getitem_setitem_same {V : Type} (k : string) (v : V) (d : list (string * V)) :
  getitem k (setitem k v d) = Some v.
Proof.
  induction d as [|[k0 v0] d IH]; simpl; rewrite ?String.eqb_refl; [reflexivity|].
  destruct (String.eqb k k0) eqn:E; simpl; rewrite ?String.eqb_refl, ?E; auto.
Qed.

Lemma getitem_setitem_other {V : Type} (k k' : string) (v : V) (d : list (string * V)) :
  k' <> k -> getitem k' (setitem k v d) = getitem k' d.
Proof.
  intros N. induction d as [|[k0 v0] d IH]; simpl.
  - apply String.eqb_neq in N. now rewrite N.
  - destruct (String.eqb k k0) eqn:E; simpl.
    + apply String.eqb_eq in E. subst k0.
      apply String.eqb_neq in N. now rewrite N.
    + destruct (String.eqb k' k0); auto.
Qed.

(** One block of the analysis: a single query, on the working copy with one
    column replaced, after which the working copy is what it was. *)
Lemma what_if_step (model : Model) (l : list row) (W : row) (s : store)
    (probability : float) (col : string) (healthy original : value)
    (changes : list (string * float)) :
  frames s = l ++ [W] ->
  getitem col W = Some original ->
  what_if model (length l) probability col healthy original changes s =
    (Ok (setitem col
           (fsub probability (snd (predict_proba model (setitem col healthy W))))
           changes),
     {| frames := l ++ [W];
        queries := queries s ++ [PredictProba (setitem col healthy W)];
        screen := screen s |}).
Proof.
  intros Hs Hc. destruct s as [fs qs sc]. simpl in Hs. subst fs.
  unfold what_if, model_predict_proba, set_column, ask, read, bind, ret.
  cbn [frames queries screen].
  rewrite (update_end (setitem col healthy)), !nth_end.
  rewrite (update_end (setitem col original)).
  now rewrite (setitem_restore _ _ _ _ Hc).
Qed.

Lemma health_suggestions_shows (f : Form) (bmi : float) (s : store) :
  health_suggestions f bmi s =
    (Ok tt, {| frames := frames s; queries := queries s;
               screen := screen s ++ suggestions f bmi |}).
Proof.
  destruct s as [fs qs sc].
  unfold health_suggestions, suggestions, suggestion_table, when, st, bind, ret.
  destruct (gt (VFloat bmi) 22), (gt (glucose f) 110), (gt (insulin f) 25),
    (gt (blood_pressure f) 120), (family_history f);
    cbn [frames queries screen fst snd filter map negb family_history_encoded Z.eqb];
    rewrite <- ?app_assoc, ?app_nil_r; reflexivity.
Qed.

Lemma what_if_analysis_probes (model : Model) (f : Form) (bmi : float) (s : store)
    (fs : list row) :
  let X := input_row f bmi in
  frames s = fs ++ [X] ->
  what_if_analysis model f bmi (length fs) (snd (predict_proba model X)) s =
    (Ok tt,
     {| frames := fs ++ [X; X];
        queries := queries s ++ map (fun c => PredictProba (probe X c)) (eligible f bmi);
        screen := screen s ++ counterfactual model X (eligible f bmi) |}).
Proof.
  intros X Hs. destruct s as [fs0 qs sc]. simpl in Hs. subst fs0.
  unfold what_if_analysis, copy, DataFrame, read.
  unfold bind at 1. cbn [frames queries screen]. rewrite nth_end.
  unfold counterfactual, deltas, eligible, factors, risk_delta, probe.
  destruct (gt (VFloat bmi) 22), (gt (glucose f) 110), (gt (insulin f) 25);
    unfold bind, ret; cbv beta iota;
    repeat (erewrite what_if_step; [cbv beta iota | reflexivity | reflexivity]);
    cbn [frames queries screen fst snd filter map st];
    rewrite <- ?app_assoc, ?app_nil_r; reflexivity.
Qed.

Lemma run_raises (model : Model) (f : Form) (s : store) (e : exn) :
  bmi_of (weight f) (height f) = Raise e ->
  run model f s = (Raise e, s).
Proof.
  intros H. unfold run, prediction_section, bind, lift. now rewrite H.
Qed.

Lemma run_returns (model : Model) (f : Form) (s : store) (bmi : float) :
  bmi_of (weight f) (height f) = Ok bmi ->
  run model f s =
    (Ok tt, {| frames := frames s ++ new_frames model f bmi;
               queries := queries s ++ new_queries model f bmi;
               screen := screen s ++ new_elements model f bmi |}).
Proof.
  intros H. destruct s as [fs qs sc].
  unfold run, prediction_section, new_frames, new_queries, new_elements,
    result_header, at_risk.
  unfold bind at 1, lift. rewrite H.
  cbv beta iota delta [bind DataFrame model_predict model_predict_proba ask st
    read ret frames queries screen].
  rewrite !nth_end, health_suggestions_shows.
  cbv beta iota delta [frames queries screen].
  set (X := input_row f bmi).
  unfold when. destruct (predict model X =? 1).
  - rewrite (what_if_analysis_probes model f bmi _ fs) by reflexivity.
    cbn [frames queries screen]. fold X.
    rewrite <- ?app_assoc. reflexivity.
  - rewrite <- ?app_assoc, ?app_nil_r. reflexivity.
Qed.

(** ** The order on floats *)

Lemma SFcompare_key (x y : float) :
  is_nan x = false -> is_nan y = false ->
  match SFcompare x y with
  | Some Lt => lex_lt (key x) (key y)
  | Some Eq => lex_eq (key x) (key y)
  | Some Gt => lex_lt (key y) (key x)
  | None => False
  end.
Proof.
  unfold lex_lt, lex_eq.
  destruct x as [sx|sx| |sx mx ex], y as [sy|sy| |sy my ey]; try discriminate;
    intros _ _; try destruct sx; try destruct sy; cbn; try lia.
  all: destruct (Z.compare_spec ex ey); try lia;
       change (Pos.compare_cont Eq mx my) with (Pos.compare mx my);
       destruct (Pos.compare_spec mx my); cbn; lia.
Qed.

Ltac float_order x y :=
  let H := fresh "K" in
  pose proof (SFcompare_key x y) as H;
  unfold float_gt, float_lt, float_le, SFltb, SFleb in *;
  destruct (SFcompare x y) as [[]|]; unfold lex_lt, lex_eq in H.

Lemma not_gt_le (x y : float) :
  is_nan x = false -> is_nan y = false ->
  float_gt x y = false -> float_le x y = true.
Proof. intros Hx Hy. float_order x y; intuition congruence. Qed.

Lemma gt_lt (x y : float) : float_gt x y = true -> float_lt y x = true.
Proof.
  unfold float_gt, float_lt, SFltb.
  destruct x as [sx|sx| |sx mx ex], y as [sy|sy| |sy my ey]; cbn;
    try destruct sx; try destruct sy; try congruence.
  all: rewrite (Z.compare_antisym ex ey);
       destruct (ex ?= ey); cbn; try congruence;
       change (Pos.compare_cont Eq ?a ?b) with (Pos.compare a b);
       rewrite (Pos.compare_antisym mx my);
       destruct (mx ?= my)%positive; cbn; congruence.
Qed.

Lemma float_lt_trans (x y z : float) :
  is_nan x = false -> is_nan y = false -> is_nan z = false ->
  float_lt x y = true -> float_lt y z = true -> float_lt x z = true.
Proof.
  intros Hx Hy Hz.
  float_order x y; float_order y z; float_order x z;
    intros; try congruence; exfalso;
    specialize (K Hx Hy); specialize (K0 Hy Hz); specialize (K1 Hx Hz);
    try contradiction; lia.
Qed.

Lemma float_le_lt_trans (x y z : float) :
  is_nan x = false -> is_nan y = false -> is_nan z = false ->
  float_le x y = true -> float_lt y z = true -> float_lt x z = true.
Proof.
  intros Hx Hy Hz.
  float_order x y; float_order y z; float_order x z;
    intros; try congruence; exfalso;
    specialize (K Hx Hy); specialize (K0 Hy Hz); specialize (K1 Hx Hz);
    try contradiction; lia.
Qed.

(** ** Rounding never invents a NaN and keeps the sign *)

Lemma shr_1_nonneg (mrs : shr_record) : 0 <= shr_m mrs -> 0 <= shr_m (shr_1 mrs).
Proof.
  destruct mrs as [m r t]. cbn [shr_m].
  destruct m as [|p|p]; [| destruct p |]; cbn; lia.
Qed.

Lemma iter_shr_1_nonneg (p : positive) (mrs : shr_record) :
  0 <= shr_m mrs -> 0 <= shr_m (iter_pos shr_1 p mrs).
Proof.
  revert mrs. induction p as [p IH|p IH|]; intros mrs H; cbn [iter_pos].
  - apply IH, IH, shr_1_nonneg, H.
  - apply IH, IH, H.
  - apply shr_1_nonneg, H.
Qed.

Lemma shr_fexp_nonneg (m e : Z) (l : location) :
  0 <= m -> 0 <= shr_m (fst (shr_fexp prec emax m e l)).
Proof.
  intros H. unfold shr_fexp, shr.
  assert (H0 : 0 <= shr_m (shr_record_of_loc m l)) by (destruct l as [|[]]; exact H).
  destruct (fexp prec emax (Zdigits2 m + e) - e); cbn [fst]; auto.
  apply iter_shr_1_nonneg, H0.
Qed.

Lemma round_nearest_even_nonneg (m : Z) (l : location) :
  0 <= m -> 0 <= round_nearest_even m l.
Proof.
  intros H. destruct l as [|[]]; cbn; try lia. destruct (Z.even m); lia.
Qed.

Lemma binary_round_aux_signed (s : bool) (m e : Z) (l : location) :
  0 <= m -> signed_as s (binary_round_aux prec emax s m e l).
Proof.
  intros H. unfold binary_round_aux.
  pose proof (shr_fexp_nonneg m e l H) as H1.
  destruct (shr_fexp prec emax m e l) as [mrs' e']. cbn [fst] in H1.
  pose proof (shr_fexp_nonneg _ e' loc_Exact
                (round_nearest_even_nonneg _ (loc_of_shr_record mrs') H1)) as H2.
  destruct (shr_fexp prec emax _ e' loc_Exact) as [mrs'' e'']. cbn [fst] in H2.
  destruct (shr_m mrs'') as [|p|p]; [reflexivity | | lia].
  now destruct (e'' <=? emax - prec).
Qed.

Lemma binary_normalize_not_nan (m e : Z) :
  is_nan (binary_normalize prec emax m e false) = false.
Proof.
  destruct m as [|p|p]; cbn [binary_normalize]; [reflexivity| |];
    unfold binary_round;
    destruct (shl_align _ _ _) as [mz ez];
    match goal with
    | |- is_nan (binary_round_aux _ _ ?s (Zpos ?m) ?e ?l) = false =>
        pose proof (binary_round_aux_signed s (Zpos m) e l ltac:(lia)) as H;
        destruct (binary_round_aux prec emax s (Zpos m) e l); [reflexivity ..| destruct H | reflexivity]
    end.
Qed.

Lemma fsub_not_nan (x y : float) :
  is_finite x = true -> is_finite y = true -> is_nan (fsub x y) = false.
Proof.
  destruct x as [sx|sx| |sx mx ex], y as [sy|sy| |sy my ey]; try discriminate;
    intros _ _; unfold fsub, SFsub.
  - destruct sx, sy; reflexivity.
  - reflexivity.
  - reflexivity.
  - apply binary_normalize_not_nan.
Qed.

Lemma negative_le0 (x : float) : signed_as true x -> float_le0 x = true.
Proof.
  destruct x as [s|s| |s m e]; cbn; try contradiction; intros ->;
    unfold float_le0, compare_float_Z; try reflexivity.
  destruct (Z.leb_spec 0 e).
  - assert (0 < 2 ^ e) by (apply Z.pow_pos_nonneg; lia).
    destruct (Z.compare_spec (Zneg m * 2 ^ e) 0); try reflexivity; lia.
  - reflexivity.
Qed.

Lemma le0_cases (x : float) :
  float_le0 x = true ->
  (exists s, x = S754_zero s) \/ x = S754_infinity true \/
  (exists m e, x = S754_finite true m e).
Proof.
  destruct x as [s|s| |s m e]; unfold float_le0, compare_float_Z; try discriminate.
  - intros _. left. now exists s.
  - destruct s; [intros _; right; now left | discriminate].
  - destruct s; [intros _; right; right; now exists m, e |].
    intros H. exfalso. destruct (Z.leb_spec 0 e).
    + assert (0 < 2 ^ e) by (apply Z.pow_pos_nonneg; lia).
      destruct (Z.compare_spec (Zpos m * 2 ^ e) 0); try discriminate; lia.
    + cbn in H. discriminate.
Qed.

(** A float that is at most zero, times one hundred, is at most zero. *)
Lemma fmul_100_le0 (x : float) :
  float_le0 x = true -> float_le0 (fmul x (float_of_Z 100)) = true.
Proof.
  change (float_of_Z 100) with (S754_finite false 7036874417766400 (-46)).
  intros H. destruct (le0_cases x H) as [[s ->]|[->|[m [e ->]]]].
  - reflexivity.
  - reflexivity.
  - apply negative_le0. unfold fmul, SFmul. cbn [xorb].
    apply binary_round_aux_signed. lia.
Qed.

(** ** The first maximum *)

Lemma max_from_first_maximum (best : string * float) (rest : list (string * float)) :
  Forall (fun item => is_nan (snd item) = false) (best :: rest) ->
  exists before after,
    best :: rest = before ++ max_from best rest :: after /\
    Forall (fun item => float_lt (snd item) (snd (max_from best rest)) = true) before /\
    Forall (fun item => float_le (snd item) (snd (max_from best rest)) = true) after.
Proof.
  revert best. induction rest as [|item rest IH]; intros best Hn.
  - exists [], []. cbn. auto.
  - inversion Hn as [|? ? Hb Hn']; subst. inversion Hn' as [|? ? Hi Hr]; subst.
    cbn [max_from]. destruct (float_gt (snd item) (snd best)) eqn:G.
    + destruct (IH item Hn') as (before & after & E & Hlt & Hle).
      exists (best :: before), after. split; [cbn; congruence|]. split; [|exact Hle].
      constructor; [|exact Hlt].
      apply gt_lt in G.
      assert (Hm : is_nan (snd (max_from item rest)) = false).
      { assert (In (max_from item rest) (item :: rest))
          by (rewrite E; apply in_elt).
        rewrite Forall_forall in Hn'. now apply Hn'. }
      destruct before as [|b before].
      * injection E as E _. now rewrite <- E.
      * injection E as E _. subst b. inversion Hlt; subst.
        now apply (float_lt_trans _ (snd item)).
    + destruct (IH best (Forall_cons _ Hb Hr)) as (before & after & E & Hlt & Hle).
      assert (Hm : is_nan (snd (max_from best rest)) = false).
      { assert (In (max_from best rest) (best :: rest))
          by (rewrite E; apply in_elt).
        pose proof (Forall_cons _ Hb Hr) as Hall.
        rewrite Forall_forall in Hall. now apply Hall. }
      apply not_gt_le in G; auto.
      destruct before as [|b before].
      * injection E as E1 E2. exists [], (item :: after).
        split; [cbn; congruence|]. split; [constructor|].
        constructor; [now rewrite <- E1 | exact Hle].
      * injection E as E1 E2. subst b.
        exists (best :: item :: before), after.
        split; [cbn; congruence|]. split; [|exact Hle].
        inversion Hlt; subst. constructor; [assumption|].
        constructor; [|assumption].
        now apply (float_le_lt_trans _ (snd best)).
Qed.

(** ** Rounding to decimals *)

Lemma round_half_even_nearest (n d : Z) :
  0 < d -> 2 * Z.abs (n - round_half_even n d * d) <= d.
Proof.
  intros Hd. unfold round_half_even. cbv zeta.
  pose proof (Z.div_mod n d ltac:(lia)) as E.
  pose proof (Z.mod_pos_bound n d Hd) as B.
  set (q := n / d) in *. set (r := n mod d) in *.
  assert (Eq1 : n - q * d = r) by lia.
  assert (Eq2 : n - (q + 1) * d = r - d) by lia.
  destruct (Z.compare_spec (2 * r) d); [destruct (Z.even q)| |];
    rewrite ?Eq1, ?Eq2; lia.
Qed.

Lemma round_half_even_nonneg (n d : Z) : 0 <= n -> 0 < d -> 0 <= round_half_even n d.
Proof.
  intros Hn Hd. unfold round_half_even. cbv zeta.
  pose proof (Z.div_pos n d Hn Hd).
  destruct (2 * (n mod d) ?= d); [destruct (Z.even (n / d))| |]; lia.
Qed.

Lemma Qabs_signed (s : bool) (v : Q) :
  (0 <= v)%Q -> (Qabs (if s then - v else v) == v)%Q.
Proof. intros H. destruct s; [rewrite Qabs_opp|]; now apply Qabs_pos. Qed.

(** [round x 2] is the float nearest to [k / 100], where [k] is an integer
    within one half of a hundred times the value of [x]. *)
Lemma round_2_decimals (x : float) :
  is_finite x = true ->
  exists k : Z,
    0 <= k /\
    (Qabs (100 * Qabs (to_Q x) - inject_Z k) <= 1 # 2)%Q /\
    round x 2 = nearest_decimal (sign x) k 2.
Proof.
  destruct x as [s|s| |s m e]; try discriminate; intros _.
  - exists 0. split; [lia|]. split; [now vm_compute | reflexivity].
  - unfold round, to_Q, sign. change (10 ^ 2) with 100.
    destruct (Z.leb_spec 0 e) as [He|He].
    + assert (0 < 2 ^ e) by (apply Z.pow_pos_nonneg; lia).
      exists (Zpos m * 2 ^ e * 100). split; [lia|]. split; [|reflexivity].
      rewrite Qabs_signed by (unfold Qle, inject_Z; cbn [Qnum Qden]; lia).
      apply Qabs_Qle_condition.
      unfold Qminus, Qplus, Qmult, Qopp, Qle, inject_Z. cbn [Qnum Qden].
      rewrite ?Pos.mul_1_r, ?Pos.mul_1_l, ?Z.mul_1_r. split; lia.
    + assert (Hd : 0 < 2 ^ (- e)) by (apply Z.pow_pos_nonneg; lia).
      exists (round_half_even (Zpos m * 100) (2 ^ (- e))).
      split; [apply round_half_even_nonneg; lia|]. split; [|reflexivity].
      pose proof (round_half_even_nearest (Zpos m * 100) _ Hd) as N.
      set (k := round_half_even (Zpos m * 100) (2 ^ (- e))) in *.
      rewrite Qabs_signed by (unfold Qle; cbn [Qnum Qden]; lia).
      apply Qabs_Qle_condition.
      unfold Qminus, Qplus, Qmult, Qopp, Qle, inject_Z. cbn [Qnum Qden].
      rewrite ?Pos.mul_1_r, ?Pos.mul_1_l, ?Z.mul_1_r.
      rewrite Z2Pos.id by lia.
      split; lia.
Qed.

Lemma shown_suggestions_new (model : Model) (f : Form) (bmi : float) :
  filter is_suggestion (new_elements model f bmi) = suggestions f bmi.
Proof.
  unfold new_elements, result_header, suggestions, suggestion_table, counterfactual.
  rewrite !filter_app.
  assert (E : forall l, filter is_suggestion
                (if at_risk model (input_row f bmi)
                 then match l with
                      | [] => []
                      | first :: rest =>
                          [info_what_if (fst (max_from first rest))
                             (fmul (snd (max_from first rest)) (float_of_Z 100))]
                      end
                 else []) = []).
  { intros l. destruct (at_risk _ _); [destruct l|]; reflexivity. }
  rewrite E, app_nil_r.
  destruct (gt (VFloat bmi) 22), (gt (glucose f) 110), (gt (insulin f) 25),
    (gt (blood_pressure f) 120), (family_history f); reflexivity.
Qed.

Lemma shown_what_if_new (model : Model) (f : Form) (bmi : float) :
  filter is_what_if (new_elements model f bmi) =
    if at_risk model (input_row f bmi)
    then counterfactual model (input_row f bmi) (eligible f bmi)
    else [].
Proof.
  unfold new_elements, result_header, suggestions, suggestion_table.
  rewrite !filter_app.
  assert (E : filter is_what_if
                (map snd (filter fst
                   [ (gt (VFloat bmi) 22, warning "BMI is high for age. Consider weight management.");
                     (gt (glucose f) 110, warning "Glucose is elevated. Consider dietary monitoring.");
                     (gt (insulin f) 25, warning "Insulin is elevated. Consult a pediatrician.");
                     (gt (blood_pressure f) 120, warning "High blood pressure. Needs monitoring.");
                     (match family_history f with Yes => true | No => false end,
                      info "Family history increases risk. Take preventive measures.") ])) = []).
  { destruct (gt (VFloat bmi) 22), (gt (glucose f) 110), (gt (insulin f) 25),
      (gt (blood_pressure f) 120), (family_history f); reflexivity. }
  rewrite E. cbn [filter is_what_if app].
  destruct (at_risk _ _); [|reflexivity].
  unfold counterfactual. now destruct (deltas _ _ _).
Qed.

(** ** The C library within one unit in the last place *)

Lemma In_Zrange (lo z : Z) (n : nat) :
  lo <= z < lo + Z.of_nat n -> In z (Zrange lo n).
Proof.
  intros B. unfold Zrange. apply in_map_iff.
  exists (Z.to_nat (z - lo)). split; [lia|]. apply in_seq. lia.
Qed.

Lemma pow2_within (x : float) :
  within_one_ulp libm_pow2 -> In (pow2 libm_pow2 x) (pow2_outcomes x).
Proof.
  intros W. destruct x as [s|s| |s m e]; cbn [pow2 pow2_outcomes];
    try (left; reflexivity).
  destruct (compare_float_Z (S754_finite false m e) 1) as [[| |]|];
    try (left; reflexivity); apply in_map, W.
Qed.

Lemma bmi_of_within (w h : value) :
  within_one_ulp libm_pow2 -> In (bmi_of w h) (bmi_outcomes w h).
Proof.
  intros W. unfold bmi_of, raw_bmi, bmi_outcomes.
  destruct (truediv h (VInt 100)) as [metres|e]; [|left; reflexivity].
  apply in_map_iff. exists (pow2 libm_pow2 metres).
  split; [|apply pow2_within, W].
  now destruct (pow2 libm_pow2 metres).
Qed.

(** When every outcome is the same, it is the body mass index. *)
Lemma bmi_of_settled (w h : value) (bmi : result float) :
  within_one_ulp libm_pow2 ->
  Forall (fun outcome => outcome = bmi) (bmi_outcomes w h) ->
  bmi_of w h = bmi.
Proof.
  intros W A. rewrite Forall_forall in A. apply A, bmi_of_within, W.
Qed.

Lemma form_heights_checked : forallb height_checked (Zrange 30 171) = true.
Proof. vm_compute. reflexivity. Qed.

Lemma round_as_decimal (q : float) :
  is_finite q = true -> sign q = false -> 0 <= round_digits q 2 ->
  round q 2 = decimal (round_digits q 2) 2.
Proof.
  intros Hfin Hs Hk. unfold decimal.
  replace (round_digits q 2 <? 0) with false by (symmetry; apply Z.ltb_ge; exact Hk).
  rewrite (Z.abs_eq _ Hk).
  destruct q as [s|s| |s m e]; try discriminate; cbn [sign] in Hs; subst s; reflexivity.
Qed.

(** The form takes a height of 30 to 200 and a weight of 5 to 150, in whole
    numbers: the quotient of line 124 is then computed and finite, and its
    rounding is the float nearest to a number of hundredths, from 1.25 to
    1666.67, that is within half a hundredth of the exact quotient. *)
Lemma form_inputs_have_a_bmi (h w : Z) :
  within_one_ulp libm_pow2 ->
  30 <= h <= 200 -> 5 <= w <= 150 ->
  exists metres square q,
    truediv (VInt h) (VInt 100) = Ok metres /\
    pow2 libm_pow2 metres = Ok square /\
    truediv (VInt w) (VFloat square) = Ok q /\
    is_finite q = true /\
    round q 2 = decimal (round_digits q 2) 2 /\
    2 * Z.abs (round_digits q 2 * h * h - 1000000 * w) <= h * h /\
    125 <= round_digits q 2 <= 166667.
Proof.
  intros W Hh Hw. pose proof form_heights_checked as C.
  rewrite forallb_forall in C.
  specialize (C h (In_Zrange 30 h 171 ltac:(lia))).
  unfold height_checked in C.
  destruct (truediv (VInt h) (VInt 100)) as [metres|e] eqn:Em; [|discriminate].
  rewrite forallb_forall in C.
  specialize (C w (In_Zrange 5 w 146 ltac:(lia))).
  rewrite forallb_forall in C.
  specialize (C _ (pow2_within metres W)).
  unfold bmi_checked in C.
  destruct (pow2 libm_pow2 metres) as [square|e] eqn:Es; [|discriminate].
  cbn [quotient_over] in C.
  destruct (truediv (VInt w) (VFloat square)) as [q|e] eqn:Eq; [|discriminate].
  cbv zeta in C.
  apply andb_true_iff in C. destruct C as [C Hhi].
  apply andb_true_iff in C. destruct C as [C Hlo].
  apply andb_true_iff in C. destruct C as [C Hnear].
  apply andb_true_iff in C. destruct C as [Hfin Hs].
  apply Z.leb_le in Hhi, Hlo, Hnear. apply negb_true_iff in Hs.
  exists metres, square, q.
  repeat split; try assumption; try reflexivity.
  apply round_as_decimal; [assumption | assumption | lia].
Qed.

Lemma hundredths_near (k h w : Z) :
  0 < h ->
  2 * Z.abs (k * h * h - 1000000 * w) <= h * h ->
  (Qabs (inject_Z k / 100 - exact_bmi w h) <= 1 # 200)%Q.
Proof.
  intros Hh B. unfold exact_bmi.
  assert (Nh : ~ (inject_Z h == 0)%Q).
  { unfold Qeq, inject_Z. cbn. lia. }
  assert (E : (inject_Z k / 100 - inject_Z w / (inject_Z h / 100 * (inject_Z h / 100))
               == inject_Z (k * h * h - 1000000 * w) / (100 * inject_Z (h * h)))%Q).
  { unfold Zminus. rewrite inject_Z_plus, inject_Z_opp, !inject_Z_mult.
    change (inject_Z 1000000) with 1000000%Q.
    field. exact Nh. }
  rewrite E. clear E.
  assert (P : (0 < 100 * inject_Z (h * h))%Q).
  { unfold Qlt, Qmult, inject_Z; cbn [Qnum Qden]. nia. }
  apply Qabs_Qle_condition. split.
  - apply Qle_shift_div_l; [exact P|].
    unfold Qle, Qmult, Qopp, inject_Z; cbn [Qnum Qden]. lia.
  - apply Qle_shift_div_r; [exact P|].
    unfold Qle, Qmult, Qopp, inject_Z; cbn [Qnum Qden]. lia.
Qed.

(** The patient of the scenario has a BMI of 24.31, and so has the same
    patient with the height entered below zero. *)
Lemma scenario_bmi :
  within_one_ulp libm_pow2 ->
  bmi_of (weight scenario) (height scenario) = Ok (decimal 2431 2).
Proof.
  intros W. apply bmi_of_settled; [exact W|]. vm_compute. repeat constructor.
Qed.

Lemma negative_height_bmi :
  within_one_ulp libm_pow2 ->
  bmi_of (VInt 35) (VInt (-120)) = Ok (decimal 2431 2).
Proof.
  intros W. apply bmi_of_settled; [exact W|]. vm_compute. repeat constructor.
Qed.

(** ** The encoding *)

(** C7.  The row built from the form and handed to the classifier has the
    eight columns Age, Sex, BMI, Glucose, Insulin, BloodPressure,
    PhysicalActivityLevel, FamilyHistory in this order, with Male as 1 and
    Female as 0, Sedentary, Moderate, Active as 0, 1, 2, and a family history
    as 1 and none as 0; for the scenario patient it is
    [10, 1, 24.31, 130, 30, 95, 0, 1], whatever the C library within one unit
    in the last place. *)
Theorem encoded_vector :
  (forall (model : Model) (f : Form) (bmi : float),
      bmi_of (weight f) (height f) = Ok bmi ->
      exists X : row,
        encoded (snd (run model f fresh)) = Some X /\
        nth_error (frames (snd (run model f fresh))) 0 = Some X /\
        columns X = [ "Age"; "Sex"; "BMI"; "Glucose"; "Insulin"; "BloodPressure";
                      "PhysicalActivityLevel"; "FamilyHistory" ] /\
        map snd X =
          [ VInt (age f);
            VInt (match sex f with Male => 1 | Female => 0 end);
            VFloat bmi;
            glucose f;
            insulin f;
            blood_pressure f;
            VInt (match activity f with Sedentary => 0 | Moderate => 1 | Active => 2 end);
            VInt (match family_history f with Yes => 1 | No => 0 end) ]) /\
  (within_one_ulp libm_pow2 ->
   forall model : Model,
      option_map (map snd) (encoded (snd (run model scenario fresh))) =
        Some [ VInt 10; VInt 1; VFloat (decimal 2431 2); VInt 130; VInt 30;
               VInt 95; VInt 0; VInt 1 ]).
Proof.
  split.
  - intros model f bmi H. exists (input_row f bmi).
    rewrite (run_returns model f fresh bmi H). cbn [snd frames queries fresh app].
    repeat split.
  - intros W model.
    rewrite (run_returns model scenario fresh _ (scenario_bmi W)). reflexivity.
Qed.

(** ** The body mass index *)

(** C5.  The BMI cell of the encoded row is the quotient
    [weight / (height / 100) ** 2] rounded to two decimals.  Whatever the C
    library: with [metres] the height over 100, [square] what [**] makes of
    it and [q] the weight over [square], the cell holds [round (q, 2)], the
    float nearest to [k / 100] for an integer [k] within one half of a
    hundred times [q].  With a C library within one unit in the last place:
    for every height and weight the form lets through, the cell holds the
    float nearest to [k / 100] for a [k / 100] within half a hundredth of the
    weight over the square of the height in metres, in exact arithmetic; and
    a height of 120 with a weight of 30.72 gives exactly 21.33. *)
Theorem bmi_rounded_to_2_decimals :
  (forall (model : Model) (f : Form) (metres square q : float),
      truediv (height f) (VInt 100) = Ok metres ->
      pow2 libm_pow2 metres = Ok square ->
      truediv (weight f) (VFloat square) = Ok q ->
      raw_bmi (weight f) (height f) = Ok q /\
      exists X : row,
        encoded (snd (run model f fresh)) = Some X /\
        getitem "BMI" X = Some (VFloat (round q 2)) /\
        (is_finite q = true ->
         exists k : Z,
           0 <= k /\
           (Qabs (100 * Qabs (to_Q q) - inject_Z k) <= 1 # 2)%Q /\
           round q 2 = nearest_decimal (sign q) k 2)) /\
  (within_one_ulp libm_pow2 ->
   forall (model : Model) (f : Form) (h w : Z),
      height f = VInt h -> 30 <= h <= 200 ->
      weight f = VInt w -> 5 <= w <= 150 ->
      exists (X : row) (k : Z),
        encoded (snd (run model f fresh)) = Some X /\
        getitem "BMI" X = Some (VFloat (decimal k 2)) /\
        (Qabs (inject_Z k / 100 - exact_bmi w h) <= 1 # 200)%Q) /\
  (within_one_ulp libm_pow2 ->
   forall (model : Model) (f : Form),
      height f = VInt 120 ->
      weight f = VFloat (decimal 3072 2) ->
      exists X : row,
        encoded (snd (run model f fresh)) = Some X /\
        getitem "BMI" X = Some (VFloat (decimal 2133 2))).
Proof.
  split; [|split].
  - intros model f metres square q Hm Hs Hq.
    assert (Hraw : raw_bmi (weight f) (height f) = Ok q)
      by (unfold raw_bmi; now rewrite Hm, Hs).
    assert (H : bmi_of (weight f) (height f) = Ok (round q 2))
      by (unfold bmi_of; now rewrite Hraw).
    split; [exact Hraw|].
    exists (input_row f (round q 2)).
    rewrite (run_returns model f fresh _ H).
    split; [reflexivity|]. split; [reflexivity|].
    intros Hfin. destruct (round_2_decimals q Hfin) as (k & Hk & Hnear & Hround).
    now exists k.
  - intros W model f h w Hh Bh Hw Bw.
    destruct (form_inputs_have_a_bmi h w W Bh Bw)
      as (metres & square & q & Hm & Hs & Hq & _ & Hround & Hnear & _).
    assert (H : bmi_of (weight f) (height f) = Ok (decimal (round_digits q 2) 2))
      by (unfold bmi_of, raw_bmi; now rewrite Hh, Hw, Hm, Hs, Hq, Hround).
    exists (input_row f (decimal (round_digits q 2) 2)), (round_digits q 2).
    rewrite (run_returns model f fresh _ H).
    split; [reflexivity|]. split; [reflexivity|].
    apply hundredths_near; [lia | exact Hnear].
  - intros W model f Hh Hw.
    assert (H : bmi_of (weight f) (height f) = Ok (decimal 2133 2)).
    { rewrite Hh, Hw. apply bmi_of_settled; [exact W|].
      vm_compute. repeat constructor. }
    exists (input_row f (decimal 2133 2)).
    rewrite (run_returns model f fresh _ H). split; reflexivity.
Qed.

(** ** The suggestions *)

Lemma In_suggestions (f : Form) (bmi : float) :
  (In bmi_warning (suggestions f bmi) <-> gt (VFloat bmi) 22 = true) /\
  (In (warning "Glucose is elevated. Consider dietary monitoring.") (suggestions f bmi)
     <-> gt (glucose f) 110 = true) /\
  (In (warning "Insulin is elevated. Consult a pediatrician.") (suggestions f bmi)
     <-> gt (insulin f) 25 = true) /\
  (In (warning "High blood pressure. Needs monitoring.") (suggestions f bmi)
     <-> gt (blood_pressure f) 120 = true) /\
  (In (info "Family history increases risk. Take preventive measures.") (suggestions f bmi)
     <-> family_history f = Yes).
Proof.
  unfold suggestions, suggestion_table, bmi_warning.
  destruct (gt (VFloat bmi) 22), (gt (glucose f) 110), (gt (insulin f) 25),
    (gt (blood_pressure f) 120), (family_history f);
    cbn [filter map fst snd In];
    repeat split; intros H; try reflexivity; try discriminate H;
    try (now intuition discriminate); try (now intuition auto).
Qed.

(** C6.  The suggestions shown are exactly the lines of the table whose
    condition holds, in the order of the table BMI, glucose, insulin, blood
    pressure, family history; every condition is a strict inequality, so a
    BMI of 22.0 brings no BMI warning and a BMI of 22.01 brings one. *)
Theorem suggestions_follow_the_table :
  (forall (model : Model) (f : Form) (bmi : float),
      bmi_of (weight f) (height f) = Ok bmi ->
      let shown := shown_suggestions (snd (run model f fresh)) in
      shown =
        map snd (filter fst
          [ (gt (VFloat bmi) 22,
             warning "BMI is high for age. Consider weight management.");
            (gt (glucose f) 110,
             warning "Glucose is elevated. Consider dietary monitoring.");
            (gt (insulin f) 25,
             warning "Insulin is elevated. Consult a pediatrician.");
            (gt (blood_pressure f) 120,
             warning "High blood pressure. Needs monitoring.");
            (match family_history f with Yes => true | No => false end,
             info "Family history increases risk. Take preventive measures.") ]) /\
      (In bmi_warning shown <-> gt (VFloat bmi) 22 = true) /\
      (In (warning "Glucose is elevated. Consider dietary monitoring.") shown
         <-> gt (glucose f) 110 = true) /\
      (In (warning "Insulin is elevated. Consult a pediatrician.") shown
         <-> gt (insulin f) 25 = true) /\
      (In (warning "High blood pressure. Needs monitoring.") shown
         <-> gt (blood_pressure f) 120 = true) /\
      (In (info "Family history increases risk. Take preventive measures.") shown
         <-> family_history f = Yes)) /\
  (forall (model : Model) (f : Form),
      bmi_of (weight f) (height f) = Ok (decimal 2200 2) ->
      ~ In bmi_warning (shown_suggestions (snd (run model f fresh)))) /\
  (forall (model : Model) (f : Form),
      bmi_of (weight f) (height f) = Ok (decimal 2201 2) ->
      In bmi_warning (shown_suggestions (snd (run model f fresh)))).
Proof.
  assert (E : forall model f bmi, bmi_of (weight f) (height f) = Ok bmi ->
              shown_suggestions (snd (run model f fresh)) = suggestions f bmi).
  { intros model f bmi H. rewrite (run_returns model f fresh bmi H).
    unfold shown_suggestions. cbn [snd screen fresh app].
    apply shown_suggestions_new. }
  split; [|split].
  - intros model f bmi H shown. subst shown. rewrite (E model f bmi H).
    split; [reflexivity | apply In_suggestions].
  - intros model f H. rewrite (E model f _ H).
    rewrite (proj1 (In_suggestions f _)). now vm_compute.
  - intros model f H. rewrite (E model f _ H).
    rewrite (proj1 (In_suggestions f _)). now vm_compute.
Qed.

(** ** The probes *)

Lemma probes_of_run (model : Model) (f : Form) (bmi : float) :
  bmi_of (weight f) (height f) = Ok bmi ->
  probes (snd (run model f fresh)) =
    if at_risk model (input_row f bmi)
    then map (probe (input_row f bmi)) (eligible f bmi)
    else [].
Proof.
  intros H. rewrite (run_returns model f fresh bmi H).
  unfold probes, new_queries. cbn [snd queries fresh app skipn].
  destruct (at_risk _ _); [|reflexivity].
  induction (eligible f bmi) as [|c cs IH]; [reflexivity|].
  cbn [map flat_map app]. now rewrite IH.
Qed.

Lemma what_if_of_run (model : Model) (f : Form) (bmi : float) :
  bmi_of (weight f) (height f) = Ok bmi ->
  shown_what_if (snd (run model f fresh)) =
    if at_risk model (input_row f bmi)
    then counterfactual model (input_row f bmi) (eligible f bmi)
    else [].
Proof.
  intros H. rewrite (run_returns model f fresh bmi H).
  unfold shown_what_if. cbn [snd screen fresh app].
  apply shown_what_if_new.
Qed.

Lemma In_eligible (f : Form) (bmi : float) :
  (In ("BMI", VInt 20) (eligible f bmi) <-> gt (VFloat bmi) 22 = true) /\
  (In ("Glucose", VInt 100) (eligible f bmi) <-> gt (glucose f) 110 = true) /\
  (In ("Insulin", VInt 20) (eligible f bmi) <-> gt (insulin f) 25 = true) /\
  (forall c, In c (eligible f bmi) ->
     c = ("BMI", VInt 20) \/ c = ("Glucose", VInt 100) \/ c = ("Insulin", VInt 20)).
Proof.
  unfold eligible, factors.
  destruct (gt (VFloat bmi) 22), (gt (glucose f) 110), (gt (insulin f) 25);
    cbn [filter map fst snd In];
    repeat split; intros; try reflexivity; try discriminate;
    try (now intuition discriminate); try (now intuition auto).
Qed.

Lemma In_bmi_probe (f : Form) (bmi : float) :
  In (probe (input_row f bmi) ("BMI", VInt 20))
     (map (probe (input_row f bmi)) (eligible f bmi))
  <-> gt (VFloat bmi) 22 = true.
Proof.
  unfold eligible, factors, probe, input_row.
  destruct (gt (VFloat bmi) 22), (gt (glucose f) 110), (gt (insulin f) 25);
    cbn; split; intros H; try reflexivity; try discriminate H;
    try (now intuition discriminate); try (now intuition auto).
Qed.

(** C10.  The BMI that is compared with 22, for the warning and for the
    what-if analysis alike, is the quotient already rounded to two decimals:
    a quotient of 22.004, which is over 22, rounds to 22.0 and brings neither
    the BMI warning nor the BMI probe. *)
Theorem bmi_threshold_is_on_the_rounded_value :
  (forall (model : Model) (f : Form) (q : float),
      raw_bmi (weight f) (height f) = Ok q ->
      let s := snd (run model f fresh) in
      (In bmi_warning (shown_suggestions s) <-> gt (VFloat (round q 2)) 22 = true) /\
      (at_risk model (input_row f (round q 2)) = true ->
       (In (probe (input_row f (round q 2)) ("BMI", VInt 20)) (probes s)
        <-> gt (VFloat (round q 2)) 22 = true))) /\
  (forall (model : Model) (f : Form),
      height f = VInt 100 ->
      weight f = VFloat (decimal 22004 3) ->
      let s := snd (run model f fresh) in
      raw_bmi (weight f) (height f) = Ok (decimal 22004 3) /\
      gt (VFloat (decimal 22004 3)) 22 = true /\
      round (decimal 22004 3) 2 = decimal 2200 2 /\
      ~ In bmi_warning (shown_suggestions s) /\
      ~ In (probe (input_row f (decimal 2200 2)) ("BMI", VInt 20)) (probes s)).
Proof.
  assert (G : forall model f q, raw_bmi (weight f) (height f) = Ok q ->
     let s := snd (run model f fresh) in
     (In bmi_warning (shown_suggestions s) <-> gt (VFloat (round q 2)) 22 = true) /\
     (In (probe (input_row f (round q 2)) ("BMI", VInt 20)) (probes s) ->
      gt (VFloat (round q 2)) 22 = true) /\
     (at_risk model (input_row f (round q 2)) = true ->
      gt (VFloat (round q 2)) 22 = true ->
      In (probe (input_row f (round q 2)) ("BMI", VInt 20)) (probes s))).
  { intros model f q Hq s.
    assert (H : bmi_of (weight f) (height f) = Ok (round q 2))
      by (unfold bmi_of; now rewrite Hq).
    subst s. split; [|split].
    - unfold shown_suggestions. rewrite (run_returns model f fresh _ H).
      cbn [snd screen fresh app]. rewrite shown_suggestions_new.
      apply In_suggestions.
    - rewrite (probes_of_run model f _ H).
      destruct (at_risk _ _); [apply (proj1 (In_bmi_probe f _)) | intros Hin; inversion Hin].
    - intros Hr Hg. rewrite (probes_of_run model f _ H), Hr.
      now apply (proj2 (In_bmi_probe f _)). }
  split.
  - intros model f q Hq s. destruct (G model f q Hq) as (G1 & G2 & G3).
    split; [exact G1|]. intros Hr. split; [exact G2 | exact (G3 Hr)].
  - intros model f Hh Hw s.
    assert (Hq : raw_bmi (weight f) (height f) = Ok (decimal 22004 3))
      by (rewrite Hh, Hw; vm_compute; reflexivity).
    assert (Hg : gt (VFloat (round (decimal 22004 3) 2)) 22 = false)
      by (vm_compute; reflexivity).
    assert (Er : round (decimal 22004 3) 2 = decimal 2200 2)
      by (vm_compute; reflexivity).
    destruct (G model f _ Hq) as (G1 & G2 & _). fold s in G1, G2.
    split; [exact Hq|]. split; [vm_compute; reflexivity|]. split; [exact Er|].
    rewrite Er in *. split.
    + intros Hin. apply G1 in Hin. congruence.
    + intros Hin. apply G2 in Hin. congruence.
Qed.

(** ** A height of zero, a height below zero *)

(** C4, as the code has it.  A height of zero (the integer or a float zero)
    makes the division of the weight raise: the run ends on
    [ZeroDivisionError] (or on [OverflowError] when the weight is an integer
    beyond the floats) before any frame is built, any query is made or
    anything is shown. *)
Theorem zero_height_aborts (model : Model) (f : Form) (s : store) :
  height f = VInt 0 \/ (exists sg, height f = VFloat (S754_zero sg)) ->
  run model f s =
    (Raise match as_double (weight f) with
           | Raise e => e
           | Ok _ => ZeroDivisionError
           end,
     s).
Proof.
  intros H. apply run_raises. unfold bmi_of, raw_bmi.
  assert (E : exists sg, truediv (height f) (VInt 100) = Ok (S754_zero sg)).
  { destruct H as [-> | [sg ->]]; [exists false | exists sg];
      [reflexivity | now destruct sg]. }
  destruct E as [sg ->].
  cbn [pow2].
  unfold truediv.
  destruct (weight f) as [z|x]; [|reflexivity].
  now destruct (as_double (VInt z)).
Qed.

(** ** The what-if analysis *)

Lemma probe_changes_one_column (X : row) (c : string * value) :
  getitem (fst c) (probe X c) = Some (snd c) /\
  (forall col, col <> fst c -> getitem col (probe X c) = getitem col X).
Proof.
  unfold probe. split.
  - apply getitem_setitem_same.
  - intros col N. now apply getitem_setitem_other.
Qed.

(** C2.  Each probe handed to the classifier is the encoded row with one
    eligible column replaced by its healthy value (BMI 20, glucose 100,
    insulin 20) and every other column as in the encoded row, so no
    replacement leaks into the next probe; when the run ends the frame
    [input_data] still holds the encoded row and the working copy holds it
    again. *)
Theorem probes_change_a_single_factor (model : Model) (f : Form) (bmi : float) :
  bmi_of (weight f) (height f) = Ok bmi ->
  at_risk model (input_row f bmi) = true ->
  let X := input_row f bmi in
  let s := snd (run model f fresh) in
  encoded s = Some X /\
  probes s = map (probe X) (eligible f bmi) /\
  (forall c, In c (eligible f bmi) ->
     (c = ("BMI", VInt 20) \/ c = ("Glucose", VInt 100) \/ c = ("Insulin", VInt 20)) /\
     getitem (fst c) (probe X c) = Some (snd c) /\
     (forall col, col <> fst c -> getitem col (probe X c) = getitem col X) /\
     columns (probe X c) = columns X) /\
  frames s = [X; X].
Proof.
  intros H Hr X s. subst X s.
  rewrite (probes_of_run model f bmi H), Hr.
  rewrite (run_returns model f fresh bmi H).
  unfold new_frames, new_queries, encoded. rewrite Hr.
  cbn [snd frames fresh app queries].
  split; [reflexivity|]. split; [reflexivity|]. split; [|reflexivity].
  intros c Hc.
  pose proof (proj2 (proj2 (proj2 (In_eligible f bmi))) c Hc) as Hthree.
  split; [exact Hthree|].
  split; [apply probe_changes_one_column|].
  split; [apply probe_changes_one_column|].
  destruct Hthree as [-> | [-> | ->]]; reflexivity.
Qed.

(** C3.  The what-if analysis is run only when the classifier answers 1: then
    its probes are those of the factors among BMI, glucose, insulin whose
    value is over the threshold of its suggestion (22, 110, 25), in this
    order, and otherwise there is neither a probe nor a what-if line; with no
    factor over its threshold there is no what-if line either, whatever the
    classifier answered. *)
Theorem what_if_runs_on_eligible_factors (model : Model) (f : Form) (bmi : float) :
  bmi_of (weight f) (height f) = Ok bmi ->
  let X := input_row f bmi in
  let s := snd (run model f fresh) in
  (at_risk model X = false ->
     queries s = [Predict X; PredictProba X] /\ probes s = [] /\ shown_what_if s = []) /\
  (at_risk model X = true -> probes s = map (probe X) (eligible f bmi)) /\
  eligible f bmi =
    map fst (filter snd [ ("BMI", VInt 20, gt (VFloat bmi) 22);
                          ("Glucose", VInt 100, gt (glucose f) 110);
                          ("Insulin", VInt 20, gt (insulin f) 25) ]) /\
  (In ("BMI", VInt 20) (eligible f bmi) <-> gt (VFloat bmi) 22 = true) /\
  (In ("Glucose", VInt 100) (eligible f bmi) <-> gt (glucose f) 110 = true) /\
  (In ("Insulin", VInt 20) (eligible f bmi) <-> gt (insulin f) 25 = true) /\
  (eligible f bmi = [] -> probes s = [] /\ shown_what_if s = []) /\
  (shown_what_if s <> [] -> at_risk model X = true /\ eligible f bmi <> []).
Proof.
  intros H X s. subst X s.
  rewrite (probes_of_run model f bmi H), (what_if_of_run model f bmi H).
  rewrite (run_returns model f fresh bmi H). unfold new_queries.
  cbn [snd queries fresh app].
  destruct (In_eligible f bmi) as (E1 & E2 & E3 & _).
  destruct (at_risk model (input_row f bmi)).
  - split; [discriminate|]. split; [reflexivity|]. split; [reflexivity|].
    repeat (split; [assumption|]). split.
    + intros ->. split; reflexivity.
    + intros N. split; [reflexivity|]. intros E. apply N. now rewrite E.
  - split; [now intros _|]. split; [discriminate|]. split; [reflexivity|].
    repeat (split; [assumption|]). split; [now intros _|].
    intros N. now contradiction N.
Qed.

(** ** The factor that is reported *)

Lemma max_from_In (best : string * float) (rest : list (string * float)) :
  In (max_from best rest) (best :: rest).
Proof.
  revert best. induction rest as [|item rest IH]; intros best; cbn [max_from].
  - now left.
  - destruct (float_gt (snd item) (snd best)).
    + right. apply IH.
    + destruct (IH best) as [E|I]; [now left | right; now right].
Qed.

Lemma counterfactual_reports (model : Model) (X : row) (cs : list (string * value)) :
  cs <> [] ->
  exists best,
    In best cs /\
    counterfactual model X cs =
      [info_what_if (fst best) (fmul (risk_delta model X best) (float_of_Z 100))].
Proof.
  intros N. unfold counterfactual.
  destruct (deltas model X cs) as [|first rest] eqn:E.
  - destruct cs; [contradiction | discriminate].
  - pose proof (max_from_In first rest) as I. rewrite <- E in I.
    unfold deltas in I. apply in_map_iff in I. destruct I as (best & Eb & Ib).
    exists best. split; [exact Ib|]. now rewrite <- Eb.
Qed.

(** C9.  With the classifier answering 1 and at least one factor over its
    threshold, a what-if line is shown whatever the risk deltas are; when
    every delta is zero or negative, so is the drop it reports: nothing asks
    for a positive delta. *)
Theorem what_if_line_needs_no_positive_delta (model : Model) (f : Form) (bmi : float) :
  bmi_of (weight f) (height f) = Ok bmi ->
  at_risk model (input_row f bmi) = true ->
  eligible f bmi <> [] ->
  let X := input_row f bmi in
  let s := snd (run model f fresh) in
  exists best,
    In best (eligible f bmi) /\
    shown_what_if s =
      [info_what_if (fst best) (fmul (risk_delta model X best) (float_of_Z 100))] /\
    ((forall c, In c (eligible f bmi) -> float_le0 (risk_delta model X c) = true) ->
     float_le0 (fmul (risk_delta model X best) (float_of_Z 100)) = true).
Proof.
  intros H Hr N X s. subst X s.
  rewrite (what_if_of_run model f bmi H), Hr.
  destruct (counterfactual_reports model (input_row f bmi) _ N) as (best & Ib & Ec).
  exists best. split; [exact Ib|]. split; [exact Ec|].
  intros Hall. apply fmul_100_le0, Hall, Ib.
Qed.

Lemma deltas_not_nan (model : Model) (X : row) (cs : list (string * value)) :
  (forall Y, is_finite (snd (predict_proba model Y)) = true) ->
  Forall (fun item => is_nan (snd item) = false) (deltas model X cs).
Proof.
  intros Hfin. unfold deltas. apply Forall_forall. intros item I.
  apply in_map_iff in I. destruct I as (c & <- & _).
  apply fsub_not_nan; apply Hfin.
Qed.

(** C1.  With the classifier answering 1, finite probabilities and at least
    one factor over its threshold, the factor reported has the greatest risk
    delta (base probability minus probability of its probe) and, among the
    factors of greatest delta, comes first in the order BMI, glucose,
    insulin: every eligible factor before it has a strictly smaller delta,
    every one after it a delta that is smaller or equal. *)
Theorem reported_factor_is_first_maximum (model : Model) (f : Form) (bmi : float) :
  bmi_of (weight f) (height f) = Ok bmi ->
  (forall Y, is_finite (snd (predict_proba model Y)) = true) ->
  at_risk model (input_row f bmi) = true ->
  eligible f bmi <> [] ->
  let X := input_row f bmi in
  let s := snd (run model f fresh) in
  let delta := risk_delta model X in
  eligible f bmi =
    map fst (filter snd [ ("BMI", VInt 20, gt (VFloat bmi) 22);
                          ("Glucose", VInt 100, gt (glucose f) 110);
                          ("Insulin", VInt 20, gt (insulin f) 25) ]) /\
  exists before best after,
    eligible f bmi = before ++ best :: after /\
    shown_what_if s = [info_what_if (fst best) (fmul (delta best) (float_of_Z 100))] /\
    Forall (fun c => float_lt (delta c) (delta best) = true) before /\
    Forall (fun c => float_le (delta c) (delta best) = true) after.
Proof.
  intros H Hfin Hr N X s delta. subst X s delta. split; [reflexivity|].
  rewrite (what_if_of_run model f bmi H), Hr.
  set (X := input_row f bmi). unfold counterfactual.
  pose proof (deltas_not_nan model X (eligible f bmi) Hfin) as Hnan.
  destruct (deltas model X (eligible f bmi)) as [|first rest] eqn:E.
  { destruct (eligible f bmi); [contradiction | discriminate]. }
  destruct (max_from_first_maximum first rest Hnan) as (l1 & l2 & D & Hlt & Hle).
  rewrite <- E in D. unfold deltas in D.
  apply map_eq_app in D. destruct D as (before & tl & Ecs & Eb & Et).
  apply map_eq_cons in Et. destruct Et as (best & after & -> & Ebest & Ea).
  exists before, best, after. split; [exact Ecs|].
  rewrite <- Ebest in *. cbn [fst snd] in *. split; [reflexivity|]. split.
  - rewrite <- Eb in Hlt. now apply Forall_map in Hlt.
  - rewrite <- Ea in Hle. now apply Forall_map in Hle.
Qed.

(** ** Two runs *)

Lemma extend_fresh (s : store) : extend s fresh = s.
Proof. destruct s. unfold extend. cbn. now rewrite !app_nil_r. Qed.

Lemma new_parts_ext (model model' : Model) (f : Form) (bmi : float) :
  (forall X, predict model X = predict model' X) ->
  (forall X, predict_proba model X = predict_proba model' X) ->
  new_frames model f bmi = new_frames model' f bmi /\
  new_queries model f bmi = new_queries model' f bmi /\
  new_elements model f bmi = new_elements model' f bmi.
Proof.
  intros Hp Hq.
  assert (Er : at_risk model (input_row f bmi) = at_risk model' (input_row f bmi))
    by (unfold at_risk; now rewrite Hp).
  assert (Ed : forall cs, deltas model (input_row f bmi) cs
                          = deltas model' (input_row f bmi) cs).
  { intros cs. unfold deltas. apply map_ext. intros c.
    unfold risk_delta. now rewrite !Hq. }
  unfold new_frames, new_queries, new_elements, result_header, counterfactual.
  now rewrite Er, Ed, Hq.
Qed.

(** C8.  Two runs on the same form, with classifiers that answer alike, end
    the same way and add the same frames, the same classifier queries and the
    same page elements (label, probability, suggestions, what-if line) to
    whatever stores they started from. *)
Theorem runs_are_reproducible (model model' : Model) (f : Form) (s s' : store) :
  (forall X, predict model X = predict model' X) ->
  (forall X, predict_proba model X = predict_proba model' X) ->
  exists (r : result unit) (d : store),
    run model f s = (r, extend s d) /\
    run model' f s' = (r, extend s' d) /\
    run model f fresh = (r, d).
Proof.
  intros Hp Hq. destruct (bmi_of (weight f) (height f)) as [bmi|e] eqn:H.
  - destruct (new_parts_ext model model' f bmi Hp Hq) as (E1 & E2 & E3).
    exists (Ok tt),
      {| frames := new_frames model f bmi; queries := new_queries model f bmi;
         screen := new_elements model f bmi |}.
    rewrite !(run_returns _ f _ bmi H), <- E1, <- E2, <- E3.
    repeat split.
  - exists (Raise e), fresh. rewrite !(run_raises _ f _ e H), !extend_fresh.
    repeat split.
Qed.

(** ** The gauge *)

Lemma float_le_not_nan (x y : float) :
  float_le x y = true -> is_nan x = false /\ is_nan y = false.
Proof.
  unfold float_le, SFleb.
  destruct x as [sx|sx| |sx mx ex], y as [sy|sy| |sy my ey]; cbn; auto; discriminate.
Qed.

Lemma float_gt_le_trans (x y c : float) :
  is_nan c = false ->
  float_gt x c = true -> float_le x y = true -> float_gt y c = true.
Proof.
  intros Hc G L. destruct (float_le_not_nan x y L) as [Hx Hy].
  revert G L.
  float_order x c; float_order x y; float_order y c;
    intros; try congruence; exfalso;
    specialize (K Hx Hc); specialize (K0 Hx Hy); specialize (K1 Hy Hc);
    try contradiction; lia.
Qed.

(** X3.  The colour of the bar never gets calmer as the probability grows:
    green, orange, red in this order. *)
Theorem bar_color_grows_with_probability (p p' : float) :
  float_le p p' = true ->
  Gauge.severity (Gauge.bar_color (Gauge.create_gauge p))
    <= Gauge.severity (Gauge.bar_color (Gauge.create_gauge p')).
Proof.
  intros L. unfold Gauge.create_gauge. cbn [Gauge.bar_color].
  destruct (float_gt p (decimal 6 1)) eqn:G6.
  - rewrite (float_gt_le_trans p p' (decimal 6 1) eq_refl G6 L). reflexivity.
  - destruct (float_gt p (decimal 3 1)) eqn:G3.
    + rewrite (float_gt_le_trans p p' (decimal 3 1) eq_refl G3 L).
      destruct (float_gt p' (decimal 6 1)); now vm_compute.
    + destruct (float_gt p' (decimal 6 1)); [now vm_compute|].
      destruct (float_gt p' (decimal 3 1)); now vm_compute.
Qed.

(** ** Runs that raise, runs that return *)

(** X4.  A run that raises has raised on the BMI, the first line of the
    section: the store is what it was, so no frame was built, the classifier
    was not asked and nothing was shown. *)
Theorem raising_run_leaves_no_trace (model : Model) (f : Form) (s : store) (e : exn) :
  fst (run model f s) = Raise e ->
  run model f s = (Raise e, s) /\ bmi_of (weight f) (height f) = Raise e.
Proof.
  intros H. destruct (bmi_of (weight f) (height f)) as [bmi|e'] eqn:B.
  - rewrite (run_returns model f s bmi B) in H. discriminate.
  - rewrite (run_raises model f s e' B) in *. cbn in H. injection H as ->.
    split; reflexivity.
Qed.

Lemma squares_checked :
  forallb (fun h => (h =? 0) || square_defined h) (Zrange (-1000) (Z.to_nat 2001)) = true.
Proof. vm_compute. reflexivity. Qed.

Lemma bmi_of_float_weight (weight : value) (h : Z) (x : float) :
  as_double weight = Ok x ->
  bmi_of weight (VInt h) =
    match truediv (VInt h) (VInt 100) with
    | Raise e => Raise e
    | Ok metres =>
        match pow2 libm_pow2 metres with
        | Raise e => Raise e
        | Ok square =>
            if is_zero square then Raise ZeroDivisionError
            else Ok (round (fdiv x square) 2)
        end
    end.
Proof.
  intros Hx. unfold bmi_of, raw_bmi.
  destruct (truediv (VInt h) (VInt 100)) as [metres|e]; [|reflexivity].
  destruct (pow2 libm_pow2 metres) as [square|e]; [|reflexivity].
  assert (E : truediv weight (VFloat square) = float_div x square).
  { unfold truediv. destruct weight as [z|y]; now rewrite Hx. }
  rewrite E. unfold float_div. now destruct (is_zero square).
Qed.

(** X5.  With a C library within one unit in the last place, for a
    whole-number height from -1000 to 1000 and a weight that is a float or
    fits in one, the run raises exactly when the height is 0: every other
    height, the negative ones too, goes through. *)
Theorem only_zero_height_raises (model : Model) (f : Form) (s : store)
    (h : Z) (x : float) :
  within_one_ulp libm_pow2 ->
  height f = VInt h -> -1000 <= h <= 1000 ->
  as_double (weight f) = Ok x ->
  (fst (run model f s) = Ok tt <-> h <> 0) /\
  (h = 0 -> run model f s = (Raise ZeroDivisionError, s)).
Proof.
  intros W Hh Hr Hx.
  pose proof (bmi_of_float_weight (weight f) h x Hx) as B. rewrite <- Hh in B.
  destruct (Z.eq_dec h 0) as [->|N].
  - assert (R : bmi_of (weight f) (height f) = Raise ZeroDivisionError)
      by (rewrite B, Hh; reflexivity).
    rewrite (run_raises model f s _ R). split; [|reflexivity].
    split; [discriminate | intros C; now contradiction C].
  - split; [|intros C; contradiction].
    split; [intros _; exact N | intros _].
    pose proof squares_checked as C. rewrite forallb_forall in C.
    specialize (C h (In_Zrange (-1000) h (Z.to_nat 2001) ltac:(lia))).
    apply orb_true_iff in C. destruct C as [C|C]; [apply Z.eqb_eq in C; lia|].
    unfold square_defined in C. rewrite Hh in B.
    destruct (truediv (VInt h) (VInt 100)) as [metres|]; [|discriminate].
    rewrite forallb_forall in C. specialize (C _ (pow2_within metres W)).
    destruct (pow2 libm_pow2 metres) as [square|]; [|discriminate].
    destruct (is_zero square); [discriminate|].
    rewrite <- Hh in B. now rewrite (run_returns model f s _ B).
Qed.

(** ** The sign of the height *)

Lemma binary_round_aux_abs (s s' : bool) (m e : Z) (l : location) :
  SFabs (binary_round_aux prec emax s m e l)
  = SFabs (binary_round_aux prec emax s' m e l).
Proof.
  unfold binary_round_aux.
  destruct (shr_fexp prec emax m e l) as [mrs' e'].
  destruct (shr_fexp prec emax _ e' loc_Exact) as [mrs'' e''].
  destruct (shr_m mrs'') as [|p|p]; [reflexivity | | reflexivity].
  now destruct (e'' <=? emax - prec).
Qed.

Lemma pow2_abs (x : float) : pow2 libm_pow2 x = pow2 libm_pow2 (SFabs x).
Proof. now destruct x. Qed.

Lemma abs_infinity (x y : float) :
  SFabs x = SFabs y ->
  match x, y with
  | S754_infinity _, S754_infinity _ => True
  | S754_infinity _, _ | _, S754_infinity _ => False
  | _, _ => True
  end.
Proof.
  destruct x as [sx|sx| |sx mx ex], y as [sy|sy| |sy my ey]; cbn; auto; discriminate.
Qed.

Lemma metres_abs (h : Z) :
  match truediv (VInt h) (VInt 100), truediv (VInt (- h)) (VInt 100) with
  | Ok a, Ok b => SFabs a = SFabs b
  | Raise e, Raise e' => e = e'
  | _, _ => False
  end.
Proof.
  unfold truediv. cbn [Z.eqb].
  assert (E : SFabs (fdiv (raw h) (raw 100)) = SFabs (fdiv (raw (- h)) (raw 100))).
  { destruct h as [|p|p]; [reflexivity| |]; unfold fdiv, SFdiv; cbn [raw Z.opp];
      destruct (SFdiv_core_binary prec emax (Z.pos p) 0 100 0) as [[mz ez] lz];
      apply binary_round_aux_abs. }
  pose proof (abs_infinity _ _ E) as I.
  destruct (fdiv (raw h) (raw 100)), (fdiv (raw (- h)) (raw 100));
    try contradiction; auto.
Qed.

(** X6.  The BMI does not see the sign of the height, which is squared: a
    height and its opposite give the same BMI, or raise the same way,
    whatever the C library. *)
Theorem bmi_ignores_sign_of_height (weight : value) (h : Z) :
  bmi_of weight (VInt (- h)) = bmi_of weight (VInt h).
Proof.
  unfold bmi_of, raw_bmi. pose proof (metres_abs h) as M.
  destruct (truediv (VInt h) (VInt 100)) as [a|e],
    (truediv (VInt (- h)) (VInt 100)) as [b|e']; try contradiction.
  - now rewrite (pow2_abs a), (pow2_abs b), M.
  - now subst.
Qed.

(** ** What the classifier is asked, what the page ends with *)

Lemma eligible_at_most_three (f : Form) (bmi : float) :
  (length (eligible f bmi) <= 3)%nat.
Proof.
  unfold eligible, factors.
  destruct (gt (VFloat bmi) 22), (gt (glucose f) 110), (gt (insulin f) 25);
    cbn; lia.
Qed.

(** X7.  A run that gets past the BMI asks the classifier for the label once,
    first, then for probabilities only: once on the encoded row and once
    more for each eligible factor, five queries at most, and two when the
    label is not 1. *)
Theorem classifier_is_asked_at_most_five_times (model : Model) (f : Form) (bmi : float) :
  bmi_of (weight f) (height f) = Ok bmi ->
  let X := input_row f bmi in
  exists rest,
    queries (snd (run model f fresh)) = Predict X :: PredictProba X :: rest /\
    forallb is_predict_proba rest = true /\
    length rest = (if at_risk model X then length (eligible f bmi) else 0%nat) /\
    (length rest <= 3)%nat.
Proof.
  intros H X. subst X. rewrite (run_returns model f fresh bmi H).
  unfold new_queries. cbn [snd queries fresh app].
  eexists. split; [reflexivity|].
  pose proof (eligible_at_most_three f bmi) as B.
  destruct (at_risk model (input_row f bmi)); [|repeat split; cbn; lia].
  rewrite length_map. split; [|split; [reflexivity | exact B]].
  clear B. induction (eligible f bmi) as [|c cs IH]; [reflexivity | exact IH].
Qed.

Lemma In_header (model : Model) (f : Form) (bmi : float) (e : element) :
  In e (result_header model f bmi) -> is_what_if e = false /\ is_suggestion e = false.
Proof.
  unfold result_header. cbn [In].
  intros [<-|[<-|[<-|[<-|[<-|[<-|[<-|[]]]]]]]]; split; reflexivity.
Qed.

Lemma In_suggestions_kind (f : Form) (bmi : float) (e : element) :
  In e (suggestions f bmi) -> is_what_if e = false.
Proof.
  unfold suggestions, suggestion_table.
  destruct (gt (VFloat bmi) 22), (gt (glucose f) 110), (gt (insulin f) 25),
    (gt (blood_pressure f) 120), (family_history f);
    cbn [filter map fst snd In]; intros H;
    repeat (destruct H as [<-|H]; [reflexivity|]); contradiction.
Qed.

(** X8.  The factor named by the what-if line is always one whose warning is
    on the page: BMI, glucose or insulin, each with the warning of its
    threshold shown above the line. *)
Theorem reported_factor_has_its_warning (model : Model) (f : Form)
    (best_factor : string) (drop : float) :
  let page := screen (snd (run model f fresh)) in
  In (info_what_if best_factor drop) page ->
  (best_factor = "BMI" /\
   In (warning "BMI is high for age. Consider weight management.") page) \/
  (best_factor = "Glucose" /\
   In (warning "Glucose is elevated. Consider dietary monitoring.") page) \/
  (best_factor = "Insulin" /\
   In (warning "Insulin is elevated. Consult a pediatrician.") page).
Proof.
  intros page. subst page.
  destruct (bmi_of (weight f) (height f)) as [bmi|e] eqn:H.
  2:{ rewrite (run_raises model f fresh e H). intros []. }
  rewrite (run_returns model f fresh bmi H). cbn [snd screen fresh app].
  unfold new_elements. intros I.
  apply in_app_or in I. destruct I as [I|I];
    [apply In_header in I; destruct I; discriminate|].
  apply in_app_or in I. destruct I as [I|I];
    [apply In_suggestions_kind in I; discriminate|].
  destruct (at_risk model (input_row f bmi)); [|destruct I].
  assert (N : eligible f bmi <> []).
  { intros E. rewrite E in I. destruct I. }
  destruct (counterfactual_reports model (input_row f bmi) _ N) as (best & Ib & Ec).
  rewrite Ec in I. destruct I as [I|[]]. injection I as Ef _.
  destruct (In_eligible f bmi) as (E1 & E2 & E3 & E4).
  destruct (In_suggestions f bmi) as (S1 & S2 & S3 & _).
  assert (Sub : forall e, In e (suggestions f bmi) ->
            In e (result_header model f bmi ++ suggestions f bmi ++
                  counterfactual model (input_row f bmi) (eligible f bmi))).
  { intros e Ie. apply in_or_app. right. apply in_or_app. now left. }
  destruct (E4 best Ib) as [-> | [-> | ->]]; cbn [fst] in Ef; subst best_factor.
  - left. split; [reflexivity|]. apply Sub, S1, E1, Ib.
  - right. left. split; [reflexivity|]. apply Sub, S2, E2, Ib.
  - right. right. split; [reflexivity|]. apply Sub, S3, E3, Ib.
Qed.

(** X9.  A run shows one what-if line at most, and when it shows one it is
    the last thing on the page. *)
Theorem what_if_line_is_single_and_last (model : Model) (f : Form) :
  let page := screen (snd (run model f fresh)) in
  (length (filter is_what_if page) <= 1)%nat /\
  (forall e, In e page -> is_what_if e = true ->
     exists before, page = before ++ [e] /\ forallb (fun x => negb (is_what_if x)) before = true).
Proof.
  intros page. subst page.
  destruct (bmi_of (weight f) (height f)) as [bmi|e] eqn:H.
  2:{ rewrite (run_raises model f fresh e H). split; [cbn; lia | intros x []]. }
  assert (W := what_if_of_run model f bmi H). unfold shown_what_if in W.
  rewrite (run_returns model f fresh bmi H) in *. cbn [snd screen fresh app] in *.
  assert (P : forallb (fun x => negb (is_what_if x))
                (result_header model f bmi ++ suggestions f bmi) = true).
  { apply forallb_forall. intros x Ix. apply in_app_or in Ix.
    destruct Ix as [Ix|Ix];
      [apply In_header in Ix; destruct Ix as [-> _] | rewrite (In_suggestions_kind _ _ _ Ix)];
      reflexivity. }
  unfold new_elements in *. rewrite app_assoc in *.
  set (top := result_header model f bmi ++ suggestions f bmi) in *.
  destruct (at_risk model (input_row f bmi)).
  - unfold counterfactual in *. destruct (deltas _ _ _) as [|first rest].
    + rewrite W. split; [cbn; lia|]. intros e Ie He. rewrite app_nil_r in Ie.
      rewrite forallb_forall in P. specialize (P e Ie). now rewrite He in P.
    + rewrite W. split; [cbn; lia|]. intros e Ie He.
      apply in_app_or in Ie. destruct Ie as [Ie|[<-|[]]].
      * rewrite forallb_forall in P. specialize (P e Ie). now rewrite He in P.
      * exists top. split; [reflexivity | exact P].
  - rewrite W. split; [cbn; lia|]. intros e Ie He. rewrite app_nil_r in Ie.
    rewrite forallb_forall in P. specialize (P e Ie). now rewrite He in P.
Qed.

(** ** The heights and weights of the form, again *)

(** X10.  With a C library within one unit in the last place, for the
    heights (30 to 200) and weights (5 to 150) the form takes, the run never
    raises and the BMI is a number of hundredths from 1.25 to 1666.67; both
    ends are reached, at 200 cm with 5 kg and at 30 cm with 150 kg. *)
Theorem form_bmi_between_1_25_and_1666_67 :
  within_one_ulp libm_pow2 ->
  (forall (model : Model) (f : Form) (s : store) (h w : Z),
      height f = VInt h -> 30 <= h <= 200 ->
      weight f = VInt w -> 5 <= w <= 150 ->
      exists k : Z,
        bmi_of (weight f) (height f) = Ok (decimal k 2) /\
        fst (run model f s) = Ok tt /\
        125 <= k <= 166667) /\
  bmi_of (VInt 5) (VInt 200) = Ok (decimal 125 2) /\
  bmi_of (VInt 150) (VInt 30) = Ok (decimal 166667 2).
Proof.
  intros W.
  split; [|split; (apply bmi_of_settled; [exact W|]); vm_compute; repeat constructor].
  intros model f s h w Hh Bh Hw Bw.
  destruct (form_inputs_have_a_bmi h w W Bh Bw)
    as (metres & square & q & Hm & Hs & Hq & _ & Hround & _ & Bk).
  assert (B : bmi_of (weight f) (height f) = Ok (decimal (round_digits q 2) 2))
    by (unfold bmi_of, raw_bmi; now rewrite Hh, Hw, Hm, Hs, Hq, Hround).
  exists (round_digits q 2). split; [exact B|]. split; [|exact Bk].
  now rewrite (run_returns model f s _ B).
Qed.

End Script.

(** ** Three C libraries

    All three are within one unit in the last place.  The first two disagree
    on the square of 0.9477, and with it on the body mass index of a height
    of 94.77 with a weight of 19.76346705645: 22.0 with the one, 22.01 with
    the other. *)

Lemma nearest_pow2_within : within_one_ulp nearest_pow2.
Proof.
  intros x. unfold squares_near, floor_pow2, ceil_pow2, nearest_pow2.
  destruct (compare_square (fmul x x) x); [left | left | right; left]; reflexivity.
Qed.

Lemma floor_pow2_within : within_one_ulp floor_pow2.
Proof. intros x. left. reflexivity. Qed.

Lemma ceil_pow2_within : within_one_ulp ceil_pow2.
Proof. intros x. right. left. reflexivity. Qed.

Example libraries_differ :
  let height := VFloat (decimal 9477 2) in
  let weight := VFloat (decimal 1976346705645 11) in
  pow2 nearest_pow2 (decimal 9477 4) = Ok (S754_finite false 8089683514744585 (-53)) /\
  pow2 floor_pow2 (decimal 9477 4) = Ok (S754_finite false 8089683514744584 (-53)) /\
  bmi_of nearest_pow2 weight height = Ok (decimal 2200 2) /\
  bmi_of floor_pow2 weight height = Ok (decimal 2201 2).
Proof. vm_compute. repeat split. Qed.

(** ** Worked cases

    Each statement above, on a patient and a classifier, with the C library
    that rounds the square to the nearest float or with the one that rounds
    it down. *)

Lemma encoded_vector_witness :
  (bmi_of nearest_pow2 (weight scenario) (height scenario) = Ok (decimal 2431 2) /\
   exists X : row,
     encoded (snd (run nearest_pow2 (constant_model 1 (decimal 8 1)) scenario fresh))
       = Some X /\
     nth_error
       (frames (snd (run nearest_pow2 (constant_model 1 (decimal 8 1)) scenario fresh))) 0
       = Some X /\
     columns X = [ "Age"; "Sex"; "BMI"; "Glucose"; "Insulin"; "BloodPressure";
                   "PhysicalActivityLevel"; "FamilyHistory" ] /\
     map snd X =
       [ VInt 10; VInt 1; VFloat (decimal 2431 2); VInt 130; VInt 30; VInt 95;
         VInt 0; VInt 1 ]) /\
  (within_one_ulp nearest_pow2 /\
   option_map (map snd)
     (encoded (snd (run nearest_pow2 (constant_model 1 (decimal 8 1)) scenario fresh))) =
     Some [ VInt 10; VInt 1; VFloat (decimal 2431 2); VInt 130; VInt 30;
            VInt 95; VInt 0; VInt 1 ]).
Proof.
  split.
  - split; [vm_compute; reflexivity|].
    apply (proj1 (encoded_vector nearest_pow2) (constant_model 1 (decimal 8 1)) scenario).
    vm_compute; reflexivity.
  - pose proof nearest_pow2_within as W.
    split; [exact W|].
    apply (proj2 (encoded_vector nearest_pow2) W).
Defined.

Lemma bmi_rounded_to_2_decimals_witness :
  let metres := fdiv (raw 120) (raw 100) in
  let square := fmul metres metres in
  let q := fdiv (float_of_Z 35) square in
  let f := {| age := 10; height := VInt 120; weight := VFloat (decimal 3072 2);
              glucose := VInt 130; insulin := VInt 30; blood_pressure := VInt 95;
              sex := Male; activity := Sedentary; family_history := Yes |} in
  ((truediv (height scenario) (VInt 100) = Ok metres /\
    pow2 nearest_pow2 metres = Ok square /\
    truediv (weight scenario) (VFloat square) = Ok q /\
    is_finite q = true) /\
   raw_bmi nearest_pow2 (weight scenario) (height scenario) = Ok q /\
   exists (X : row) (k : Z),
     encoded (snd (run nearest_pow2 contrary_model scenario fresh)) = Some X /\
     getitem "BMI" X = Some (VFloat (round q 2)) /\
     0 <= k /\
     (Qabs (100 * Qabs (to_Q q) - inject_Z k) <= 1 # 2)%Q /\
     round q 2 = nearest_decimal (sign q) k 2) /\
  ((within_one_ulp nearest_pow2 /\
    height scenario = VInt 120 /\ 30 <= 120 <= 200 /\
    weight scenario = VInt 35 /\ 5 <= 35 <= 150) /\
   exists (X : row) (k : Z),
     encoded (snd (run nearest_pow2 contrary_model scenario fresh)) = Some X /\
     getitem "BMI" X = Some (VFloat (decimal k 2)) /\
     (Qabs (inject_Z k / 100 - exact_bmi 35 120) <= 1 # 200)%Q) /\
  ((within_one_ulp nearest_pow2 /\
    height f = VInt 120 /\ weight f = VFloat (decimal 3072 2)) /\
   exists X : row,
     encoded (snd (run nearest_pow2 contrary_model f fresh)) = Some X /\
     getitem "BMI" X = Some (VFloat (decimal 2133 2))).
Proof.
  intros metres square q f.
  pose proof nearest_pow2_within as W.
  assert (Hm : truediv (height scenario) (VInt 100) = Ok metres)
    by (vm_compute; reflexivity).
  assert (Hs : pow2 nearest_pow2 metres = Ok square)
    by (vm_compute; reflexivity).
  assert (Hq : truediv (weight scenario) (VFloat square) = Ok q)
    by (vm_compute; reflexivity).
  assert (Hfin : is_finite q = true) by (vm_compute; reflexivity).
  split; [|split].
  - split; [repeat split; assumption|].
    destruct (proj1 (bmi_rounded_to_2_decimals nearest_pow2) contrary_model scenario
                metres square q Hm Hs Hq) as (Hraw & X & He & Hg & Hk).
    split; [exact Hraw|].
    destruct (Hk Hfin) as (k & K1 & K2 & K3).
    exists X, k. repeat split; assumption.
  - split; [split; [exact W | repeat split; lia]|].
    apply (proj1 (proj2 (bmi_rounded_to_2_decimals nearest_pow2)) W
             contrary_model scenario 120 35); (reflexivity || lia).
  - split; [split; [exact W | split; reflexivity]|].
    apply (proj2 (proj2 (bmi_rounded_to_2_decimals nearest_pow2)) W contrary_model f);
      reflexivity.
Defined.

Lemma suggestions_follow_the_table_witness :
  (bmi_of nearest_pow2 (weight scenario) (height scenario) = Ok (decimal 2431 2) /\
   shown_suggestions (snd (run nearest_pow2 contrary_model scenario fresh)) =
     [ warning "BMI is high for age. Consider weight management.";
       warning "Glucose is elevated. Consider dietary monitoring.";
       warning "Insulin is elevated. Consult a pediatrician.";
       info "Family history increases risk. Take preventive measures." ]) /\
  (bmi_of nearest_pow2 (VInt 22) (VInt 100) = Ok (decimal 2200 2) /\
   ~ In bmi_warning
       (shown_suggestions
          (snd (run nearest_pow2 contrary_model
                  {| age := 10; height := VInt 100; weight := VInt 22;
                     glucose := VInt 90; insulin := VInt 20; blood_pressure := VInt 90;
                     sex := Female; activity := Active; family_history := No |}
                  fresh)))) /\
  (bmi_of nearest_pow2 (VInt 45) (VInt 143) = Ok (decimal 2201 2) /\
   In bmi_warning
      (shown_suggestions
         (snd (run nearest_pow2 contrary_model
                 {| age := 10; height := VInt 143; weight := VInt 45;
                    glucose := VInt 90; insulin := VInt 20; blood_pressure := VInt 90;
                    sex := Female; activity := Active; family_history := No |}
                 fresh)))).
Proof.
  split; [|split].
  - split; [vm_compute; reflexivity|].
    rewrite (proj1 (proj1 (suggestions_follow_the_table nearest_pow2) contrary_model scenario
                      (decimal 2431 2) ltac:(vm_compute; reflexivity))).
    vm_compute; reflexivity.
  - split; [vm_compute; reflexivity|].
    apply (proj1 (proj2 (suggestions_follow_the_table nearest_pow2))). vm_compute; reflexivity.
  - split; [vm_compute; reflexivity|].
    apply (proj2 (proj2 (suggestions_follow_the_table nearest_pow2))). vm_compute; reflexivity.
Defined.

Lemma bmi_threshold_is_on_the_rounded_value_witness :
  let f := {| age := 10; height := VInt 100; weight := VFloat (decimal 22004 3);
              glucose := VInt 130; insulin := VInt 30; blood_pressure := VInt 95;
              sex := Male; activity := Sedentary; family_history := Yes |} in
  let s := snd (run nearest_pow2 contrary_model f fresh) in
  (height f = VInt 100 /\ weight f = VFloat (decimal 22004 3)) /\
  raw_bmi nearest_pow2 (weight f) (height f) = Ok (decimal 22004 3) /\
  gt (VFloat (decimal 22004 3)) 22 = true /\
  round (decimal 22004 3) 2 = decimal 2200 2 /\
  ~ In bmi_warning (shown_suggestions s) /\
  ~ In (probe (input_row f (decimal 2200 2)) ("BMI", VInt 20)) (probes s).
Proof.
  intros f s. split; [split; reflexivity|].
  apply (proj2 (bmi_threshold_is_on_the_rounded_value nearest_pow2) contrary_model f);
    reflexivity.
Defined.

Lemma zero_height_aborts_witness :
  let f := {| age := 10; height := VInt 0; weight := VInt 35;
              glucose := VInt 130; insulin := VInt 30; blood_pressure := VInt 95;
              sex := Male; activity := Sedentary; family_history := Yes |} in
  (height f = VInt 0 \/ (exists sg, height f = VFloat (S754_zero sg))) /\
  run nearest_pow2 contrary_model f fresh = (Raise ZeroDivisionError, fresh).
Proof.
  intros f. split; [now left|].
  apply ((zero_height_aborts nearest_pow2) contrary_model f fresh). now left.
Defined.

(** C4, as the claim has it, fails: a height of -120 is at most zero, yet the
    run goes through, the classifier is asked and a result is shown, with
    the one C library as with the other. *)
Lemma negative_height_is_accepted :
  let f := {| age := 10; height := VInt (-120); weight := VInt 35;
              glucose := VInt 130; insulin := VInt 30; blood_pressure := VInt 95;
              sex := Male; activity := Sedentary; family_history := Yes |} in
  gt (height f) 0 = false /\
  bmi_of nearest_pow2 (weight f) (height f) = Ok (decimal 2431 2) /\
  fst (run nearest_pow2 contrary_model f fresh) = Ok tt /\
  fst (run floor_pow2 contrary_model f fresh) = Ok tt /\
  length (queries (snd (run nearest_pow2 contrary_model f fresh))) = 5%nat /\
  In (success "At Risk of Diabetes") (screen (snd (run nearest_pow2 contrary_model f fresh))).
Proof.
  vm_compute. repeat split; auto 10.
Qed.

Lemma probes_change_a_single_factor_witness :
  let X := input_row scenario (decimal 2431 2) in
  let s := snd (run nearest_pow2 contrary_model scenario fresh) in
  (bmi_of nearest_pow2 (weight scenario) (height scenario) = Ok (decimal 2431 2) /\
   at_risk contrary_model X = true) /\
  probes s = [ probe X ("BMI", VInt 20); probe X ("Glucose", VInt 100);
               probe X ("Insulin", VInt 20) ] /\
  frames s = [X; X].
Proof.
  intros X s. subst X s.
  assert (H : bmi_of nearest_pow2 (weight scenario) (height scenario) = Ok (decimal 2431 2))
    by (vm_compute; reflexivity).
  assert (Hr : at_risk contrary_model (input_row scenario (decimal 2431 2)) = true)
    by reflexivity.
  destruct ((probes_change_a_single_factor nearest_pow2) contrary_model scenario _ H Hr)
    as (_ & Hp & _ & Hf).
  split; [split; assumption|]. split; [|exact Hf].
  rewrite Hp. reflexivity.
Defined.

Lemma what_if_runs_on_eligible_factors_witness :
  let f := {| age := 10; height := VInt 120; weight := VInt 30;
              glucose := VInt 90; insulin := VInt 20; blood_pressure := VInt 95;
              sex := Male; activity := Sedentary; family_history := Yes |} in
  let s := snd (run nearest_pow2 contrary_model f fresh) in
  bmi_of nearest_pow2 (weight f) (height f) = Ok (decimal 2083 2) /\
  at_risk contrary_model (input_row f (decimal 2083 2)) = true /\
  eligible f (decimal 2083 2) = [] /\
  probes s = [] /\ shown_what_if s = [].
Proof.
  intros f s. subst s.
  assert (H : bmi_of nearest_pow2 (weight f) (height f) = Ok (decimal 2083 2))
    by (vm_compute; reflexivity).
  split; [exact H|]. split; [reflexivity|]. split; [reflexivity|].
  apply ((what_if_runs_on_eligible_factors nearest_pow2) contrary_model f _ H). reflexivity.
Defined.

Lemma what_if_line_needs_no_positive_delta_witness :
  let X := input_row scenario (decimal 2431 2) in
  let s := snd (run nearest_pow2 contrary_model scenario fresh) in
  (bmi_of nearest_pow2 (weight scenario) (height scenario) = Ok (decimal 2431 2) /\
   at_risk contrary_model X = true /\
   eligible scenario (decimal 2431 2) <> []) /\
  (forall c, In c (eligible scenario (decimal 2431 2)) ->
     float_le0 (risk_delta contrary_model X c) = true) /\
  exists best,
    In best (eligible scenario (decimal 2431 2)) /\
    shown_what_if s =
      [info_what_if (fst best)
         (fmul (risk_delta contrary_model X best) (float_of_Z 100))] /\
    float_le0 (fmul (risk_delta contrary_model X best) (float_of_Z 100)) = true.
Proof.
  intros X s. subst X s.
  assert (H : bmi_of nearest_pow2 (weight scenario) (height scenario) = Ok (decimal 2431 2))
    by (vm_compute; reflexivity).
  assert (Hr : at_risk contrary_model (input_row scenario (decimal 2431 2)) = true)
    by reflexivity.
  assert (N : eligible scenario (decimal 2431 2) <> []) by discriminate.
  assert (Hall : forall c, In c (eligible scenario (decimal 2431 2)) ->
            float_le0 (risk_delta contrary_model
                         (input_row scenario (decimal 2431 2)) c) = true).
  { intros c [<-|[<-|[<-|[]]]]; vm_compute; reflexivity. }
  split; [repeat split; assumption|]. split; [exact Hall|].
  destruct ((what_if_line_needs_no_positive_delta nearest_pow2) contrary_model scenario _ H Hr N)
    as (best & Ib & Es & Hle).
  exists best. split; [exact Ib|]. split; [exact Es | exact (Hle Hall)].
Defined.

Lemma reported_factor_is_first_maximum_witness :
  let X := input_row scenario (decimal 2431 2) in
  let s := snd (run nearest_pow2 contrary_model scenario fresh) in
  let delta := risk_delta contrary_model X in
  (bmi_of nearest_pow2 (weight scenario) (height scenario) = Ok (decimal 2431 2) /\
   (forall Y, is_finite (snd (predict_proba contrary_model Y)) = true) /\
   at_risk contrary_model X = true /\
   eligible scenario (decimal 2431 2) <> []) /\
  exists before best after,
    eligible scenario (decimal 2431 2) = before ++ best :: after /\
    shown_what_if s = [info_what_if (fst best) (fmul (delta best) (float_of_Z 100))] /\
    Forall (fun c => float_lt (delta c) (delta best) = true) before /\
    Forall (fun c => float_le (delta c) (delta best) = true) after.
Proof.
  intros X s delta. subst X s delta.
  assert (H : bmi_of nearest_pow2 (weight scenario) (height scenario) = Ok (decimal 2431 2))
    by (vm_compute; reflexivity).
  assert (Hfin : forall Y, is_finite (snd (predict_proba contrary_model Y)) = true).
  { intros Y. cbn [contrary_model predict_proba].
    destruct (existsb _ _); reflexivity. }
  assert (Hr : at_risk contrary_model (input_row scenario (decimal 2431 2)) = true)
    by reflexivity.
  assert (N : eligible scenario (decimal 2431 2) <> []) by discriminate.
  split; [repeat split; assumption|].
  exact (proj2 ((reported_factor_is_first_maximum nearest_pow2) contrary_model scenario _ H Hfin Hr N)).
Defined.

(** Two worked cases.  With [contrary_model] the three deltas are equal and
    the first factor, BMI, is reported; with [glucose_model] the delta of the
    glucose is the greatest and glucose is reported, by about fifty points. *)
Example tie_goes_to_the_first_factor :
  let X := input_row scenario (decimal 2431 2) in
  risk_delta contrary_model X ("BMI", VInt 20)
    = risk_delta contrary_model X ("Glucose", VInt 100) /\
  risk_delta contrary_model X ("Glucose", VInt 100)
    = risk_delta contrary_model X ("Insulin", VInt 20) /\
  shown_what_if (snd (run nearest_pow2 contrary_model scenario fresh)) =
    [info_what_if "BMI"
       (fmul (fsub (decimal 8 1) (decimal 9 1)) (float_of_Z 100))].
Proof. vm_compute. repeat split. Qed.

Example greatest_delta_is_reported :
  shown_what_if (snd (run nearest_pow2 glucose_model scenario fresh)) =
    [info_what_if "Glucose"
       (fmul (fsub (decimal 8 1) (decimal 3 1)) (float_of_Z 100))] /\
  float_lt (fsub (decimal 8 1) (decimal 5 1)) (fsub (decimal 8 1) (decimal 3 1)) = true.
Proof. vm_compute. split; reflexivity. Qed.

Lemma runs_are_reproducible_witness :
  exists (r : result unit) (d : store),
    run nearest_pow2 contrary_model scenario fresh = (r, d) /\
    run nearest_pow2 contrary_model scenario d = (r, extend d d).
Proof.
  destruct ((runs_are_reproducible nearest_pow2) contrary_model contrary_model scenario
              fresh (snd (run nearest_pow2 contrary_model scenario fresh))
              (fun _ => eq_refl) (fun _ => eq_refl))
    as (r & d & _ & E2 & E3).
  exists r, d. split; [exact E3|].
  rewrite E3 in E2. exact E2.
Defined.
Lemma bar_color_grows_with_probability_witness :
  float_le (decimal 45 2) (decimal 7 1) = true /\
  Gauge.bar_color (Gauge.create_gauge (decimal 45 2)) = "orange" /\
  Gauge.bar_color (Gauge.create_gauge (decimal 7 1)) = "red" /\
  Gauge.severity (Gauge.bar_color (Gauge.create_gauge (decimal 45 2)))
    <= Gauge.severity (Gauge.bar_color (Gauge.create_gauge (decimal 7 1))).
Proof.
  split; [reflexivity|]. split; [reflexivity|]. split; [reflexivity|].
  apply (bar_color_grows_with_probability (decimal 45 2) (decimal 7 1)).
  reflexivity.
Defined.


Lemma raising_run_leaves_no_trace_witness :
  let f := {| age := 10; height := VInt 0; weight := VInt 35;
              glucose := VInt 130; insulin := VInt 30; blood_pressure := VInt 95;
              sex := Male; activity := Sedentary; family_history := Yes |} in
  let s := snd (run nearest_pow2 contrary_model scenario fresh) in
  fst (run nearest_pow2 contrary_model f s) = Raise ZeroDivisionError /\
  run nearest_pow2 contrary_model f s = (Raise ZeroDivisionError, s) /\
  bmi_of nearest_pow2 (weight f) (height f) = Raise ZeroDivisionError.
Proof.
  intros f s.
  assert (H : fst (run nearest_pow2 contrary_model f s) = Raise ZeroDivisionError)
    by (rewrite (run_raises nearest_pow2 contrary_model f s ZeroDivisionError eq_refl);
        reflexivity).
  split; [exact H|].
  exact (raising_run_leaves_no_trace nearest_pow2 contrary_model f s ZeroDivisionError H).
Defined.

Lemma only_zero_height_raises_witness :
  let f := {| age := 10; height := VInt (-143); weight := VFloat (decimal 455 1);
              glucose := VInt 130; insulin := VInt 30; blood_pressure := VInt 95;
              sex := Male; activity := Sedentary; family_history := Yes |} in
  (within_one_ulp floor_pow2 /\
   height f = VInt (-143) /\ -1000 <= -143 <= 1000 /\
   as_double (weight f) = Ok (decimal 455 1)) /\
  fst (run floor_pow2 contrary_model f fresh) = Ok tt.
Proof.
  intros f.
  pose proof floor_pow2_within as W.
  split; [split; [exact W | repeat split; lia]|].
  apply (proj1 (only_zero_height_raises floor_pow2 contrary_model f fresh (-143)
                  (decimal 455 1) W eq_refl ltac:(lia) eq_refl)).
  discriminate.
Defined.

Lemma classifier_is_asked_at_most_five_times_witness :
  bmi_of nearest_pow2 (weight scenario) (height scenario) = Ok (decimal 2431 2) /\
  length (queries (snd (run nearest_pow2 contrary_model scenario fresh))) = 5%nat /\
  exists rest,
    queries (snd (run nearest_pow2 contrary_model scenario fresh)) =
      Predict (input_row scenario (decimal 2431 2))
      :: PredictProba (input_row scenario (decimal 2431 2)) :: rest /\
    forallb is_predict_proba rest = true /\
    (length rest <= 3)%nat.
Proof.
  assert (H : bmi_of nearest_pow2 (weight scenario) (height scenario)
              = Ok (decimal 2431 2))
    by (vm_compute; reflexivity).
  split; [exact H|]. split; [rewrite (run_returns _ _ _ _ _ H); reflexivity|].
  destruct (classifier_is_asked_at_most_five_times nearest_pow2 contrary_model scenario _ H)
    as (rest & E & P & _ & B).
  exists rest. repeat split; assumption.
Defined.

Lemma reported_factor_has_its_warning_witness :
  let page := screen (snd (run nearest_pow2 glucose_model scenario fresh)) in
  let drop := fmul (fsub (decimal 8 1) (decimal 3 1)) (float_of_Z 100) in
  In (info_what_if "Glucose" drop) page /\
  In (warning "Glucose is elevated. Consider dietary monitoring.") page.
Proof.
  intros page drop.
  assert (I : In (info_what_if "Glucose" drop) page).
  { subst page drop.
    rewrite (run_returns nearest_pow2 glucose_model scenario fresh (decimal 2431 2)
               ltac:(vm_compute; reflexivity)).
    cbn [snd screen fresh app]. unfold new_elements.
    apply in_or_app. right. apply in_or_app. right.
    left. vm_compute. reflexivity. }
  split; [exact I|].
  destruct (reported_factor_has_its_warning nearest_pow2 glucose_model scenario
              "Glucose" drop I)
    as [[E _]|[[_ W]|[E _]]]; [discriminate E | exact W | discriminate E].
Defined.

Lemma what_if_line_is_single_and_last_witness :
  let page := screen (snd (run nearest_pow2 glucose_model scenario fresh)) in
  let line := info_what_if "Glucose"
                (fmul (fsub (decimal 8 1) (decimal 3 1)) (float_of_Z 100)) in
  (In line page /\ is_what_if line = true) /\
  exists before, page = before ++ [line] /\
                 forallb (fun x => negb (is_what_if x)) before = true.
Proof.
  intros page line.
  assert (I : In line page).
  { subst page line.
    rewrite (run_returns nearest_pow2 glucose_model scenario fresh (decimal 2431 2)
               ltac:(vm_compute; reflexivity)).
    cbn [snd screen fresh app]. unfold new_elements.
    apply in_or_app. right. apply in_or_app. right.
    left. vm_compute. reflexivity. }
  split; [split; [exact I | reflexivity]|].
  exact (proj2 (what_if_line_is_single_and_last nearest_pow2 glucose_model scenario)
           line I eq_refl).
Defined.

Lemma form_bmi_between_1_25_and_1666_67_witness :
  (within_one_ulp floor_pow2 /\
   height scenario = VInt 120 /\ 30 <= 120 <= 200 /\
   weight scenario = VInt 35 /\ 5 <= 35 <= 150) /\
  exists k : Z,
    bmi_of floor_pow2 (weight scenario) (height scenario) = Ok (decimal k 2) /\
    fst (run floor_pow2 contrary_model scenario fresh) = Ok tt /\
    125 <= k <= 166667.
Proof.
  pose proof floor_pow2_within as W.
  split; [split; [exact W | repeat split; lia]|].
  apply (proj1 (form_bmi_between_1_25_and_1666_67 floor_pow2 W)
           contrary_model scenario fresh 120 35);
    (reflexivity || lia).
Defined.



(** ** The calendar *)

Module DatesFacts.
Import Dates.

Lemma is_leap_digits (a b c d : Z) :
  0 <= a -> 0 <= b <= 3 -> 0 <= c <= 24 -> 0 <= d <= 3 ->
  is_leap (a * 400 + 1 + b * 100 + c * 4 + d) =
    (d =? 3) && (negb (c =? 24) || (b =? 3)).
Proof.
  intros Ha Hb Hc Hd. unfold is_leap.
  set (y := a * 400 + 1 + b * 100 + c * 4 + d).
  assert (E4 : y mod 4 = (d + 1) mod 4).
  { unfold y.
    replace (a * 400 + 1 + b * 100 + c * 4 + d)
      with ((d + 1) + (a * 100 + b * 25 + c) * 4) by lia.
    apply Z.mod_add. lia. }
  assert (E100 : y mod 100 = (c * 4 + d + 1) mod 100).
  { unfold y.
    replace (a * 400 + 1 + b * 100 + c * 4 + d)
      with ((c * 4 + d + 1) + (a * 4 + b) * 100) by lia.
    apply Z.mod_add. lia. }
  assert (E400 : y mod 400 = (b * 100 + c * 4 + d + 1) mod 400).
  { unfold y.
    replace (a * 400 + 1 + b * 100 + c * 4 + d)
      with ((b * 100 + c * 4 + d + 1) + a * 400) by lia.
    apply Z.mod_add. lia. }
  rewrite E4, E100, E400.
  destruct (Z.eqb_spec d 3), (Z.eqb_spec c 24), (Z.eqb_spec b 3);
    repeat match goal with
      | |- context [?x mod ?k =? 0] => destruct (Z.eqb_spec (x mod k) 0)
      end;
    cbn; try reflexivity; exfalso; Z.div_mod_to_equations; lia.
Qed.

Lemma days_before_year_digits (a b c d : Z) :
  0 <= a -> 0 <= b <= 3 -> 0 <= c <= 24 -> 0 <= d <= 3 ->
  days_before_year (a * 400 + 1 + b * 100 + c * 4 + d) =
    a * 146097 + b * 36524 + c * 1461 + d * 365.
Proof.
  intros. unfold days_before_year. cbv zeta.
  replace (a * 400 + 1 + b * 100 + c * 4 + d - 1)
    with (a * 400 + b * 100 + c * 4 + d) by lia.
  Z.div_mod_to_equations. lia.
Qed.

(** Every ordinal of the calendar is the ordinal of the date it is turned
    into, and that date is a date of the calendar. *)
Lemma ord2ymd_correct (n : Z) :
  1 <= n <= 3652059 ->
  valid (ord2ymd n) = true /\ toordinal (ord2ymd n) = n.
Proof.
  intros Hn. unfold ord2ymd. cbv zeta.
  set (n0 := n - 1).
  set (a := n0 / 146097). set (r400 := n0 mod 146097).
  set (b := r400 / 36524). set (r100 := r400 mod 36524).
  set (c := r100 / 1461). set (r4 := r100 mod 1461).
  set (d := r4 / 365). set (r1 := r4 mod 365).
  assert (Ha : 0 <= a <= 24) by (unfold a, n0; Z.div_mod_to_equations; lia).
  assert (Hr400 : 0 <= r400 < 146097 /\ n0 = a * 146097 + r400)
    by (unfold r400, a; Z.div_mod_to_equations; lia).
  assert (Hb : 0 <= b <= 4) by (unfold b; Z.div_mod_to_equations; lia).
  assert (Hr100 : 0 <= r100 < 36524 /\ r400 = b * 36524 + r100)
    by (unfold r100, b; Z.div_mod_to_equations; lia).
  assert (Hc : 0 <= c <= 24) by (unfold c; Z.div_mod_to_equations; lia).
  assert (Hr4 : 0 <= r4 < 1461 /\ r100 = c * 1461 + r4)
    by (unfold r4, c; Z.div_mod_to_equations; lia).
  assert (Hd : 0 <= d <= 4) by (unfold d; Z.div_mod_to_equations; lia).
  assert (Hr1 : 0 <= r1 < 365 /\ r4 = d * 365 + r1)
    by (unfold r1, d; Z.div_mod_to_equations; lia).
  clearbody a r400 b r100 c r4 d r1. unfold n0 in *. clear n0.
  unfold toordinal, ymd2ord, valid.
  destruct ((d =? 4) || (b =? 4)) eqn:Especial.
  - cbn [year month day].
    assert (Ey : a * 400 + 1 + b * 100 + c * 4 + d - 1 =
                 a * 400 + 1 + (if b =? 4 then 3 else b) * 100
                 + (if b =? 4 then 24 else c) * 4 + 3).
    { apply orb_true_iff in Especial.
      destruct (Z.eqb_spec b 4); [lia|].
      destruct Especial as [E|E]; [apply Z.eqb_eq in E; lia | discriminate]. }
    rewrite Ey. unfold days_in_month, days_before_month.
    rewrite is_leap_digits, days_before_year_digits
      by (destruct (Z.eqb_spec b 4); lia).
    apply orb_true_iff in Especial.
    assert (L : (negb ((if b =? 4 then 24 else c) =? 24)
                 || ((if b =? 4 then 3 else b) =? 3)) = true).
    { destruct (Z.eqb_spec b 4); [reflexivity|].
      destruct (Z.eqb_spec c 24); [|reflexivity].
      destruct Especial as [E|E]; [apply Z.eqb_eq in E; lia | discriminate]. }
    rewrite L. cbn.
    split.
    + repeat (apply andb_true_iff; split); try apply Z.leb_le;
        destruct (Z.eqb_spec b 4); lia.
    + destruct (Z.eqb_spec b 4); [lia|].
      destruct Especial as [E|E]; [apply Z.eqb_eq in E; lia | discriminate].
  - apply orb_false_iff in Especial. destruct Especial as [Ed Eb].
    apply Z.eqb_neq in Ed, Eb.
    rewrite Z.shiftr_div_pow2 by lia. change (2 ^ 5) with 32.
    set (m := (r1 + 50) / 32).
    assert (Hm : 32 * m <= r1 + 50 < 32 * m + 32)
      by (unfold m; Z.div_mod_to_equations; lia).
    clearbody m.
    set (leapyear := (d =? 3) && (negb (c =? 24) || (b =? 3))).
    assert (Hleap : is_leap (a * 400 + 1 + b * 100 + c * 4 + d) = leapyear)
      by (apply is_leap_digits; lia).
    assert (Hdby : days_before_year (a * 400 + 1 + b * 100 + c * 4 + d) =
                   a * 146097 + b * 36524 + c * 1461 + d * 365)
      by (apply days_before_year_digits; lia).
    assert (Hm12 : m = 1 \/ m = 2 \/ m = 3 \/ m = 4 \/ m = 5 \/ m = 6 \/ m = 7 \/
                   m = 8 \/ m = 9 \/ m = 10 \/ m = 11 \/ m = 12) by lia.
    clearbody leapyear.
    repeat (destruct Hm12 as [->|Hm12]); try subst m;
      destruct leapyear;
      cbn;
      match goal with |- context [?x <? ?y] => destruct (Z.ltb_spec x y) end;
      cbn [year month day]; unfold days_in_month, days_before_month;
      rewrite ?Hleap, ?Hdby;
      cbn;
      first [ exfalso; lia
            | split; [repeat (apply andb_true_iff; split);
                      first [reflexivity | apply Z.leb_le; lia] | lia] ].
Qed.

Lemma valid_bounds (d : date) :
  valid d = true ->
  1 <= year d <= 9999 /\ 1 <= month d <= 12 /\
  1 <= day d <= days_in_month (year d) (month d).
Proof.
  unfold valid. rewrite !andb_true_iff, !Z.leb_le. lia.
Qed.

(** Where a date falls in its year, up to the leap day. *)
Lemma day_of_year_bounds (d : date) :
  valid d = true ->
  let doy := days_before_month (year d) (month d) + day d in
  let u := DAYS_BEFORE_MONTH (month d) + day d in
  u <= doy <= u + 1 /\ 1 <= doy <= 365 + (if is_leap (year d) then 1 else 0) /\
  1 <= day d <= DAYS_IN_MONTH (month d) + (if month d =? 2 then 1 else 0).
Proof.
  intros V. apply valid_bounds in V. destruct V as (_ & Hm & Hd).
  destruct d as [y m dd]. cbn [year month day] in *.
  unfold days_in_month, days_before_month in *. cbv zeta.
  assert (Hm12 : m = 1 \/ m = 2 \/ m = 3 \/ m = 4 \/ m = 5 \/ m = 6 \/ m = 7 \/
                 m = 8 \/ m = 9 \/ m = 10 \/ m = 11 \/ m = 12) by lia.
  repeat (destruct Hm12 as [Hm12|Hm12]); subst m;
    destruct (is_leap y);
    cbn [DAYS_IN_MONTH DAYS_BEFORE_MONTH Z.eqb Z.ltb Z.compare Pos.eqb
         Pos.compare Pos.compare_cont andb] in *; lia.
Qed.

(** The order of two (month, day) pairs is the order of their places in a
    common year. *)
Lemma month_day_order (a b : date) :
  valid a = true -> valid b = true ->
  let u (d : date) := DAYS_BEFORE_MONTH (month d) + day d in
  if pair_lt (month a, day a) (month b, day b) then u a <= u b else u b <= u a.
Proof.
  intros Va Vb.
  destruct (day_of_year_bounds a Va) as (_ & _ & Ha).
  destruct (day_of_year_bounds b Vb) as (_ & _ & Hb).
  apply valid_bounds in Va, Vb. destruct Va as (_ & Hma & _), Vb as (_ & Hmb & _).
  destruct a as [ya ma da], b as [yb mb db]. cbn [year month day] in *.
  unfold pair_lt. cbn [fst snd]. cbv zeta.
  assert (Ea : ma = 1 \/ ma = 2 \/ ma = 3 \/ ma = 4 \/ ma = 5 \/ ma = 6 \/ ma = 7 \/
               ma = 8 \/ ma = 9 \/ ma = 10 \/ ma = 11 \/ ma = 12) by lia.
  assert (Eb : mb = 1 \/ mb = 2 \/ mb = 3 \/ mb = 4 \/ mb = 5 \/ mb = 6 \/ mb = 7 \/
               mb = 8 \/ mb = 9 \/ mb = 10 \/ mb = 11 \/ mb = 12) by lia.
  repeat (destruct Ea as [Ea|Ea]); subst ma;
    repeat (destruct Eb as [Eb|Eb]); subst mb;
    cbn [DAYS_IN_MONTH DAYS_BEFORE_MONTH Z.eqb Z.ltb Z.compare Pos.eqb
         Pos.compare Pos.compare_cont andb orb] in *; try lia;
    destruct (Z.ltb_spec da db); lia.
Qed.

Lemma year_length (y : Z) :
  days_before_year (y + 1) = days_before_year y + 365 + (if is_leap y then 1 else 0).
Proof.
  unfold days_before_year, is_leap. cbv zeta.
  replace (y + 1 - 1) with y by lia.
  destruct (Z.eqb_spec (y mod 4) 0), (Z.eqb_spec (y mod 100) 0),
    (Z.eqb_spec (y mod 400) 0); cbn [andb orb negb];
    Z.div_mod_to_equations; lia.
Qed.

Lemma days_before_year_mono (y y' : Z) :
  y <= y' -> days_before_year y <= days_before_year y'.
Proof.
  intros H. unfold days_before_year. cbv zeta. Z.div_mod_to_equations. lia.
Qed.

(** A later date has a later ordinal. *)
Lemma toordinal_mono (a b : date) :
  valid a = true -> valid b = true ->
  date_le a b = true -> toordinal a <= toordinal b.
Proof.
  intros Va Vb L.
  destruct (day_of_year_bounds a Va) as (Ua & Da & _).
  destruct (day_of_year_bounds b Vb) as (Ub & Db & _).
  pose proof (month_day_order a b Va Vb) as O. cbv zeta in *.
  unfold toordinal, ymd2ord. unfold date_le in L.
  destruct (Z.ltb_spec (year a) (year b)) as [Hy|Hy].
  - pose proof (year_length (year a)) as Y.
    pose proof (days_before_year_mono (year a + 1) (year b) ltac:(lia)). lia.
  - cbn [orb] in L. apply andb_true_iff in L. destruct L as [Ey L].
    apply Z.eqb_eq in Ey. rewrite Ey in *.
    unfold pair_lt in O. cbn [fst snd] in O.
    unfold days_before_month in *.
    destruct (Z.ltb_spec (month a) (month b)) as [Hm|Hm].
    + cbn [orb] in O.
      assert (H : (2 <? month a) = true -> (2 <? month b) = true)
        by (rewrite !Z.ltb_lt; lia).
      destruct (2 <? month a), (2 <? month b), (is_leap (year b)); cbn [andb] in *;
        try lia; discriminate (H eq_refl).
    + cbn [orb] in L. apply andb_true_iff in L. destruct L as [Em L].
      apply Z.eqb_eq in Em. apply Z.leb_le in L. rewrite Em. lia.
Qed.

Lemma sub_days_ordinal (d r : date) (days : Z) :
  sub_days d days = Ok r ->
  valid r = true /\ toordinal r = toordinal d - days.
Proof.
  unfold sub_days, fromordinal, MAXORDINAL. cbv zeta.
  destruct ((0 <? toordinal d - days) && (toordinal d - days <=? 3652059)) eqn:E;
    [|discriminate].
  intros [= <-]. apply andb_true_iff in E. destruct E as [E1 E2].
  apply Z.ltb_lt in E1. apply Z.leb_le in E2.
  apply ord2ymd_correct. lia.
Qed.

(** X1.  The age is the number of birthdays passed: the date of birth moved
    on by that many years is today or earlier, moved on by one more year it
    is after today (dates compared as year, month, day). *)
Theorem age_counts_birthdays (today dob : date) :
  date_le {| year := year dob + age today dob; month := month dob; day := day dob |}
          today = true /\
  date_le {| year := year dob + age today dob + 1; month := month dob; day := day dob |}
          today = false.
Proof.
  unfold age, pair_lt, date_le. cbn [year month day fst snd].
  destruct (Z.ltb_spec (month today) (month dob)),
    (Z.eqb_spec (month today) (month dob)),
    (Z.ltb_spec (day today) (day dob)); cbn [orb andb];
    repeat match goal with
      | |- context [?x <? ?y] => destruct (Z.ltb_spec x y)
      | |- context [?x =? ?y] => destruct (Z.eqb_spec x y)
      | |- context [?x <=? ?y] => destruct (Z.leb_spec x y)
      end; cbn [orb andb]; try (split; reflexivity); lia.
Qed.

(** X2.  The bounds of the date input are 5 * 365 and 18 * 365 days before
    today, which is less than five and than eighteen years: a date of birth
    between them gives an age of 4 to 17.  Both ends are reached: on 15 June
    2025 the latest date allowed is 16 June 2020, age 4, and the earliest is
    20 June 2007, age 17. *)
Theorem age_between_4_and_17 :
  (forall today dob lo hi : date,
      valid today = true -> valid dob = true ->
      min_dob today = Ok lo -> max_dob today = Ok hi ->
      date_le lo dob = true -> date_le dob hi = true ->
      4 <= age today dob <= 17) /\
  (let today := {| year := 2025; month := 6; day := 15 |} in
   max_dob today = Ok {| year := 2020; month := 6; day := 16 |} /\
   age today {| year := 2020; month := 6; day := 16 |} = 4 /\
   min_dob today = Ok {| year := 2007; month := 6; day := 20 |} /\
   age today {| year := 2007; month := 6; day := 20 |} = 17).
Proof.
  split; [|vm_compute; repeat split].
  intros today dob lo hi Vt Vd Hlo Hhi Llo Lhi.
  apply sub_days_ordinal in Hlo, Hhi.
  destruct Hlo as [Vlo Olo], Hhi as [Vhi Ohi].
  pose proof (toordinal_mono lo dob Vlo Vd Llo) as B1.
  pose proof (toordinal_mono dob hi Vd Vhi Lhi) as B2.
  rewrite Olo in B1. rewrite Ohi in B2. clear Olo Ohi Vlo Vhi Llo Lhi lo hi.
  destruct (day_of_year_bounds today Vt) as (Ut & Dt & _).
  destruct (day_of_year_bounds dob Vd) as (Ud & Dd & _).
  pose proof (month_day_order today dob Vt Vd) as O. cbv zeta in *.
  unfold age. unfold toordinal, ymd2ord in B1, B2.
  set (Tt := days_before_month (year today) (month today) + day today) in *.
  set (Td := days_before_month (year dob) (month dob) + day dob) in *.
  assert (Lt : 0 <= (if is_leap (year today) then 1 else 0) <= 1)
    by (destruct (is_leap (year today)); lia).
  assert (Ld : 0 <= (if is_leap (year dob) then 1 else 0) <= 1)
    by (destruct (is_leap (year dob)); lia).
  assert (Bt : days_before_year (year today) + Tt - 18 * 365
               <= days_before_year (year dob) + Td) by lia.
  assert (Bd : days_before_year (year dob) + Td
               <= days_before_year (year today) + Tt - 5 * 365) by lia.
  clear B1 B2.
  unfold days_before_year in Bt, Bd. cbv zeta in Bt, Bd.
  destruct (pair_lt (month today, day today) (month dob, day dob));
    Z.div_mod_to_equations; lia.
Qed.

Lemma age_between_4_and_17_witness :
  let today := {| year := 2025; month := 6; day := 15 |} in
  let dob := {| year := 2015; month := 2; day := 28 |} in
  let lo := {| year := 2007; month := 6; day := 20 |} in
  let hi := {| year := 2020; month := 6; day := 16 |} in
  (valid today = true /\ valid dob = true /\
   min_dob today = Ok lo /\ max_dob today = Ok hi /\
   date_le lo dob = true /\ date_le dob hi = true) /\
  4 <= age today dob <= 17.
Proof.
  intros today dob lo hi. split; [repeat split|].
  apply (proj1 age_between_4_and_17 today dob lo hi); reflexivity.
Defined.

End DatesFacts.
